(** * jupyterlab/labapp.py: the lab page handler and the extension registry

    A shallow embedding of [LabHandler.get] and of the registration loop of
    [load_jupyter_server_extension], with the properties of the asset plan
    (bundle URLs, CSS URLs, config payload) that the handler renders.

    Python objects are the values a JSON manifest or a config section can
    hold; dictionaries keep their insertion order (as [dict] does since
    Python 3.7) and have string keys.  Floats do not occur in the model.
    Strings are sequences of bytes, compared byte by byte, which is the
    order of the code points of their UTF-8 text.  Exceptions are the
    instances of [Exception]: what [except Exception] catches.

    The functions [get] calls but does not define (the manifest readers,
    the locator, the validator, the config provider, the [os.path] and URL
    helpers) are the fields of the records [Host] and [World]; every
    property holds for all of them.  The module [Demo] gives them concrete
    values to run the handler on. *)

From Stdlib Require Import List String Ascii ZArith Bool Lia.
From Stdlib Require Import Permutation Sorted.
Import ListNotations.
Open Scope string_scope.
Open Scope list_scope.

Set Implicit Arguments.

(** ** Python values *)

#[warnings="-register-all"]
Inductive pyval : Type :=
| PNone
| PBool (b : bool)
| PInt (z : Z)
| PStr (s : string)
| PList (l : list pyval)
| PDict (d : list (string * pyval)).

(** A [dict] with string keys, in insertion order; keys are unique. *)
Definition dict : Type := list (string * pyval).

(** The extension registry [out] of [load_jupyter_server_extension]:
    plugin name to manifest data. *)
Definition registry : Type := list (string * dict).

Inductive exn : Type :=
| KeyError (key : pyval)
| IndexError
| TypeError
| Raised (what : string).

(** [bool(v)] *)
Definition truthy (v : pyval) : bool :=
  match v with
  | PNone => false
  | PBool b => b
  | PInt z => negb (z =? 0)%Z
  | PStr s => negb (s =? "")
  | PList l => match l with [] => false | _ => true end
  | PDict d => match d with [] => false | _ => true end
  end.

(** [isinstance(v, dict)] *)
Definition is_dict (v : pyval) : bool :=
  match v with PDict _ => true | _ => false end.

(** ** Dictionaries *)

Section Mapping.
Variable V : Type.

(** [d.get(k)] as an option *)
Fixpoint lookup (d : list (string * V)) (k : string) : option V :=
  match d with
  | [] => None
  | (k', v) :: rest => if k' =? k then Some v else lookup rest k
  end.

(** [k in d] *)
Definition contains (d : list (string * V)) (k : string) : bool :=
  match lookup d k with Some _ => true | None => false end.

(** [d[k] = v]: an existing key keeps its place, a new one goes last. *)
Fixpoint setitem (d : list (string * V)) (k : string) (v : V)
  : list (string * V) :=
  match d with
  | [] => [(k, v)]
  | (k', v') :: rest =>
      if k' =? k then (k', v) :: rest else (k', v') :: setitem rest k v
  end.

(** [del d[k]], when present *)
Fixpoint remove_key (d : list (string * V)) (k : string)
  : list (string * V) :=
  match d with
  | [] => []
  | (k', v') :: rest =>
      if k' =? k then rest else (k', v') :: remove_key rest k
  end.

(** [d.update(other)] for a mapping [other] *)
Definition update (d other : list (string * V)) : list (string * V) :=
  fold_left (fun acc kv => setitem acc (fst kv) (snd kv)) other d.

Definition keys (d : list (string * V)) : list string := map fst d.
Definition values (d : list (string * V)) : list V := map snd d.
End Mapping.

(** [d.get(k, default)] *)
Definition get_default (d : dict) (k : string) (default : pyval) : pyval :=
  match lookup d k with Some v => v | None => default end.

(** ** Sequences *)

Fixpoint chars (s : string) : list pyval :=
  match s with
  | EmptyString => []
  | String c rest => PStr (String c EmptyString) :: chars rest
  end.

(** [v[0]] *)
Definition first_item (v : pyval) : exn + pyval :=
  match v with
  | PList (x :: _) => inr x
  | PList [] => inl IndexError
  | PStr (String c _) => inr (PStr (String c EmptyString))
  | PStr EmptyString => inl IndexError
  | PDict _ => inl (KeyError (PInt 0))
  | _ => inl TypeError
  end.

(** [iter(v)], run to the end *)
Definition items_of (v : pyval) : exn + list pyval :=
  match v with
  | PList l => inr l
  | PStr s => inr (chars s)
  | PDict d => inr (map (fun kv => PStr (fst kv)) d)
  | _ => inl TypeError
  end.

(** ** [sorted(labextensions.items())]

    Items are compared as tuples; the names are the keys of one dict, hence
    distinct, so the comparison is decided by the names alone.  Strings are
    compared character by character. *)

Fixpoint insert_item (x : string * dict) (l : list (string * dict))
  : list (string * dict) :=
  match l with
  | [] => [x]
  | y :: rest =>
      if (fst x <=? fst y)%string then x :: l else y :: insert_item x rest
  end.

Definition sorted (l : list (string * dict)) : list (string * dict) :=
  fold_right insert_item [] l.

(** The order [sorted] puts the items in. *)
Definition name_le (x y : string * dict) : Prop :=
  (fst x <=? fst y)%string = true.

(** ** What a request does: the template context, the page, the trace *)

(** The keyword arguments [lab.html] is rendered with. *)
Record context : Type := {
  ctx_static_prefix : string;
  ctx_page_title : string;
  ctx_mathjax_url : string;
  ctx_jupyterlab_main : pyval;
  ctx_jupyterlab_css : list string;
  ctx_jupyterlab_bundles : list string;
  ctx_plugin_entries : list pyval;
  ctx_mathjax_config : string;
  ctx_jupyterlab_config : dict
}.

(** [render_template] is the template engine's: a page is the template's
    name together with its arguments. *)
Inductive page : Type :=
| ErrorHtml (status_code : Z) (status_message page_title message : string)
| LabHtml (config : context).

Inductive logged : Type :=
| Msg (text : string)
| Exc (e : exn).

Inductive event : Type :=
| LogError (what : logged)
| Invoke (python_module : pyval)
| Write (body : page).

(** A computation leaves a trace of events and ends with a value or with
    an exception that nothing caught. *)
Definition M (A : Type) : Type := list event * (exn + A).

Definition ret {A} (a : A) : M A := ([], inr a).

Definition raise {A} (e : exn) : M A := ([], inl e).

Definition bind {A B} (m : M A) (f : A -> M B) : M B :=
  match m with
  | (t, inl e) => (t, inl e)
  | (t, inr a) => let (t', r) := f a in (t ++ t', r)
  end.

Arguments bind {A B} m f : simpl never.

Definition emit (ev : event) : M unit := ([ev], inr tt).

Definition lift {A} (r : exn + A) : M A := ([], r).

(** [try: m  except Exception as e: h e] *)
Definition try_except {A} (m : M A) (h : exn -> M A) : M A :=
  match m with
  | (t, inl e) => let (t', r) := h e in (t ++ t', r)
  | ok => ok
  end.

Declare Scope monad_scope.
Delimit Scope monad_scope with monad.
Notation "x <- m ;; k" := (bind m (fun x => k))
  (at level 61, m at next level, right associativity) : monad_scope.
Notation "m ;;; k" := (bind m (fun _ => k))
  (at level 61, right associativity) : monad_scope.
Open Scope monad_scope.

(** A [for] loop over [l] that updates [s]. *)
Fixpoint for_each {A S} (body : S -> A -> M S) (l : list A) (s : S) : M S :=
  match l with
  | [] => ret s
  | x :: rest => s' <- body s x ;; for_each body rest s'
  end.

Definition trace {A} (m : M A) : list event := fst m.
Definition outcome {A} (m : M A) : exn + A := snd m.

(** The pages a computation wrote. *)
Fixpoint written (t : list event) : list page :=
  match t with
  | [] => []
  | Write p :: rest => p :: written rest
  | _ :: rest => written rest
  end.

(** The config providers a computation called. *)
Fixpoint invoked (t : list event) : list pyval :=
  match t with
  | [] => []
  | Invoke m :: rest => m :: invoked rest
  | _ :: rest => invoked rest
  end.

(** The errors a computation logged. *)
Fixpoint errors (t : list event) : list logged :=
  match t with
  | [] => []
  | LogError x :: rest => x :: errors rest
  | _ :: rest => errors rest
  end.

(** ** The surroundings of the handler *)

(** Library functions and the settings of the server: fixed while the
    process runs. *)
Record Host : Type := {
  (** [notebook.utils.url_path_join] *)
  ujoin : string -> string -> string;
  (** [os.path.join] *)
  path_join : string -> string -> string;
  (** [os.path.splitext] *)
  splitext : string -> string * string;
  (** [str(v)] for a [v] that is not a string *)
  str_of : pyval -> string;
  (** [d.update(v)] for a [v] that is not a mapping: the dictionary it
      leaves, and the exception it ends with, if any *)
  update_from : dict -> pyval -> dict * option exn;
  (** [os.path.dirname(__file__)] *)
  HERE : string;
  base_url : string;
  mathjax_url : string;
  (** [self.settings.get('terminals_available', False)] *)
  terminals_available : pyval
}.

(** The file system and the installed extensions: what a request or the
    registration finds when it looks. *)
Record World : Type := {
  (** [os.path.isfile] *)
  isfile : string -> bool;
  get_labextension_manifest_data_by_folder : string -> exn + dict;
  get_labextension_config_python : pyval -> exn + pyval;
  find_labextension : string -> exn + option string;
  validate_labextension_folder : string -> string -> exn + list string;
  get_labextension_manifest_data_by_name : string -> exn + option dict
}.

Definition PREFIX : string := "/lab".
Definition EXTENSION_PREFIX : string := "/labextension".

(** The lists and the dictionary [get] creates and then appends to.  The
    [config] dictionary holds these very objects, so what is appended after
    [config] was built is in [config] when the template is rendered. *)
Record locals : Type := {
  entries : list pyval;
  bundles : list string;
  css_files : list string;
  configData : dict
}.

(** A name for one of the objects in [locals]: reading it gives the
    object's contents at that moment. *)
Definition ref (A : Type) : Type := locals -> A.

(** The dictionary [config] of [get]. *)
Record config : Type := {
  static_prefix : string;
  page_title : string;
  cfg_mathjax_url : string;
  jupyterlab_main : pyval;
  jupyterlab_css : ref (list string);
  jupyterlab_bundles : ref (list string);
  plugin_entries : ref (list pyval);
  mathjax_config : string
}.

(** [config['jupyterlab_config'] = configData] and
    [render_template('lab.html', **config)] in the store [st]. *)
Definition render_lab (c : config) (st : locals) : page :=
  LabHtml {|
    ctx_static_prefix := static_prefix c;
    ctx_page_title := page_title c;
    ctx_mathjax_url := cfg_mathjax_url c;
    ctx_jupyterlab_main := jupyterlab_main c;
    ctx_jupyterlab_css := jupyterlab_css c st;
    ctx_jupyterlab_bundles := jupyterlab_bundles c st;
    ctx_plugin_entries := plugin_entries c st;
    ctx_mathjax_config := mathjax_config c;
    ctx_jupyterlab_config := configData st
  |}.

Definition append_entry (st : locals) (x : pyval) : locals :=
  {| entries := entries st ++ [x]; bundles := bundles st;
     css_files := css_files st; configData := configData st |}.

Definition append_bundle (st : locals) (x : string) : locals :=
  {| entries := entries st; bundles := bundles st ++ [x];
     css_files := css_files st; configData := configData st |}.

Definition append_css (st : locals) (x : string) : locals :=
  {| entries := entries st; bundles := bundles st;
     css_files := css_files st ++ [x]; configData := configData st |}.

Definition set_configData (st : locals) (d : dict) : locals :=
  {| entries := entries st; bundles := bundles st;
     css_files := css_files st; configData := d |}.

Definition missing_build_msg : string :=
  "JupyterLab build artifacts not detected, please see " ++
  "CONTRIBUTING.md for build instructions.".

Section Handler.
Variable H : Host.
Variable W : World.

Definition BUILT_FILES : string := path_join H (HERE H) "build".

(** [str(v)] *)
Definition py_str (v : pyval) : string :=
  match v with PStr s => s | _ => str_of H v end.

(** ['%s/%s/%s' % (prefix, name, x)] *)
Definition extension_url (prefix name : string) (x : pyval) : string :=
  prefix ++ "/" ++ name ++ "/" ++ py_str x.

(** [d[k]] for a dictionary [d] *)
Definition getitem (d : dict) (k : string) : M pyval :=
  match lookup d k with
  | Some v => ret v
  | None => raise (KeyError (PStr k))
  end.

(** [v[k]] for any value [v] and a string [k] *)
Definition subscript (v : pyval) (k : string) : M pyval :=
  match v with
  | PDict d => getitem d k
  | _ => raise TypeError
  end.

(** [configData.update(value)] *)
Definition py_update (d : dict) (value : pyval) : dict * option exn :=
  match value with
  | PDict other => (update d other, None)
  | _ => update_from H d value
  end.

(** Lines 105-109: one file name of a manifest entry. *)
Definition css_step (extension_prefix name : string)
    (st : locals) (fname : pyval) : M locals :=
  match fname with
  | PStr f =>
      if snd (splitext H f) =? ".css"
      then ret (append_css st (extension_url extension_prefix name fname))
      else ret st
  | _ => raise TypeError
  end.

(** Lines 98-109: one value of a plugin's manifest data. *)
Definition value_step (extension_prefix name : string)
    (st : locals) (value : pyval) : M locals :=
  match value with
  | PDict v =>
      st1 <- (if truthy (get_default v "entry" PNone)
              then
                e <- getitem v "entry" ;;
                files <- getitem v "files" ;;
                f0 <- lift (first_item files) ;;
                ret (append_bundle (append_entry st e)
                       (extension_url extension_prefix name f0))
              else ret st) ;;
      files <- getitem v "files" ;;
      fnames <- lift (items_of files) ;;
      for_each (css_step extension_prefix name) fnames st1
  | _ => ret st
  end.

(** Lines 110-116: the plugin's config provider. *)
Definition provider_step (st : locals) (data : dict) : M locals :=
  let python_module := get_default data "python_module" PNone in
  if truthy python_module
  then
    try_except
      (emit (Invoke python_module) ;;;
       value <- lift (get_labextension_config_python W python_module) ;;
       let (d, failure) := py_update (configData st) value in
       match failure with
       | None => ret (set_configData st d)
       | Some e =>
           (* the dictionary keeps what [update] stored before it failed *)
           emit (LogError (Exc e)) ;;; ret (set_configData st d)
       end)
      (fun e => emit (LogError (Exc e)) ;;; ret st)
  else ret st.

(** Lines 96-116: one plugin of the registry. *)
Definition plugin_step (extension_prefix : string)
    (st : locals) (item : string * dict) : M locals :=
  let (name, data) := item in
  st1 <- for_each (value_step extension_prefix name) (values data) st ;;
  provider_step st1 data.

(** Lines 73-76 *)
Definition core_css_step (static_prefix : string)
    (css : list string) (css_file : string) : M (list string) :=
  if isfile W (path_join H BUILT_FILES css_file)
  then ret (css ++ [ujoin H static_prefix css_file])
  else ret css.

(** Lines 93-116: "Gather the lab extension files and entry points." *)
Definition gather (labextensions : registry) (st : locals) : M locals :=
  let extension_prefix := ujoin H (base_url H) EXTENSION_PREFIX in
  for_each (plugin_step extension_prefix) (sorted labextensions) st.

(** [LabHandler.get] *)
Definition get (labextensions : registry) : M unit :=
  let static_prefix := ujoin H (base_url H) PREFIX in
  data <- lift (get_labextension_manifest_data_by_folder W BUILT_FILES) ;;
  if negb (contains data "main")
  then
    emit (LogError (Msg missing_build_msg)) ;;;
    emit (Write (ErrorHtml 500 "JupyterLab Error" "JupyterLab Error"
                   missing_build_msg))
  else
    main_data <- getitem data "main" ;;
    main <- subscript main_data "entry" ;;
    let bundles0 :=
      map (fun name => ujoin H static_prefix (name ++ ".bundle.js"))
          ["loader"; "main"] in
    css0 <- for_each (core_css_step static_prefix) ["main.css"] [] ;;
    let config := {|
      static_prefix := static_prefix;
      page_title := "JupyterLab Alpha Preview";
      cfg_mathjax_url := mathjax_url H;
      jupyterlab_main := main;
      jupyterlab_css := css_files;
      jupyterlab_bundles := bundles;
      plugin_entries := entries;
      mathjax_config := "TeX-AMS_HTML-full,Safe"
    |} in
    let st0 := {|
      entries := [];
      bundles := bundles0;
      css_files := css0;
      configData := [("terminalsAvailable", terminals_available H)]
    |} in
    st <- gather labextensions st0 ;;
    emit (Write (render_lab config st)).

(** Lines 142-155: one configured extension. *)
Definition register_step (out : registry) (item : string * dict)
  : M registry :=
  let (name, ext_config) := item in
  enabled <- getitem ext_config "enabled" ;;
  if negb (truthy enabled) then ret out else
  folder <- lift (find_labextension W name) ;;
  match folder with
  | None => ret out
  | Some folder =>
      warnings <- lift (validate_labextension_folder W name folder) ;;
      match warnings with
      | _ :: _ => ret out
      | [] =>
          data <- lift (get_labextension_manifest_data_by_name W name) ;;
          match data with
          | None => ret out
          | Some data =>
              let data' :=
                setitem data "python_module"
                        (get_default ext_config "python_module" PNone) in
              ret (setitem out name data')
          end
      end
  end.

(** The registry [load_jupyter_server_extension] hands to the handler. *)
Definition load_labextensions (labextensions : list (string * dict))
  : M registry :=
  for_each register_step labextensions [].

End Handler.

(** ** The asset plan, as the specification words it *)

(** What a successful pass over the registry adds to the lists of [get]. *)
Definition add_assets (st : locals)
    (es : list pyval) (bs cs : list string) : locals :=
  {| entries := entries st ++ es; bundles := bundles st ++ bs;
     css_files := css_files st ++ cs; configData := configData st |}.

Section Plan.
Variable H : Host.

(** [fname] has the extension [.css]. *)
Definition is_css (fname : string) : bool := snd (splitext H fname) =? ".css".

(** The first declared file of a manifest entry. *)
Definition first_file (v : dict) : option pyval :=
  match lookup v "files" with
  | Some files =>
      match first_item files with inr f => Some f | inl _ => None end
  | None => None
  end.

(** The declared files of a manifest entry. *)
Definition declared_files (v : dict) : list pyval :=
  match lookup v "files" with
  | Some files => match items_of files with inr l => l | inl _ => [] end
  | None => []
  end.

(** The entry has a non-empty "entry" field. *)
Definition has_entry (v : dict) : bool :=
  truthy (get_default v "entry" PNone).

Definition value_entries (value : pyval) : list pyval :=
  match value with
  | PDict v => if has_entry v then [get_default v "entry" PNone] else []
  | _ => []
  end.

(** One URL, extension prefix + plugin name + first declared file, for an
    entry with an "entry" field. *)
Definition value_bundles (prefix name : string) (value : pyval)
  : list string :=
  match value with
  | PDict v =>
      if has_entry v
      then match first_file v with
           | Some f => [extension_url H prefix name f]
           | None => []
           end
      else []
  | _ => []
  end.

Definition css_urls (prefix name : string) (fnames : list pyval)
  : list string :=
  flat_map (fun fname =>
              match fname with
              | PStr f =>
                  if is_css f then [extension_url H prefix name fname]
                  else []
              | _ => []
              end) fnames.

(** One URL for every declared file with the extension [.css]. *)
Definition value_css (prefix name : string) (value : pyval) : list string :=
  match value with
  | PDict v => css_urls prefix name (declared_files v)
  | _ => []
  end.

(** The file names a plugin's manifest lists, entry after entry. *)
Definition listed_files (item : string * dict) : list pyval :=
  flat_map (fun value =>
              match value with PDict v => declared_files v | _ => [] end)
           (values (snd item)).

(** How many times the manifest lists a file with the extension [.css]. *)
Definition css_listed (item : string * dict) : nat :=
  List.length
    (filter (fun fname =>
               match fname with PStr f => is_css f | _ => false end)
            (listed_files item)).

Definition plugin_entries_of (item : string * dict) : list pyval :=
  flat_map value_entries (values (snd item)).

Definition plugin_bundles (prefix : string) (item : string * dict)
  : list string :=
  flat_map (value_bundles prefix (fst item)) (values (snd item)).

Definition plugin_css (prefix : string) (item : string * dict)
  : list string :=
  flat_map (value_css prefix (fst item)) (values (snd item)).

Definition extension_prefix : string := ujoin H (base_url H) EXTENSION_PREFIX.
Definition static_prefix_of : string := ujoin H (base_url H) PREFIX.

Definition core_bundles : list string :=
  [ujoin H static_prefix_of "loader.bundle.js";
   ujoin H static_prefix_of "main.bundle.js"].

Variable W : World.

(** The core CSS URL, when the file is on disk. *)
Definition core_css : list string :=
  if isfile W (path_join H (BUILT_FILES H) "main.css")
  then [ujoin H static_prefix_of "main.css"] else [].

(** What the provider of one plugin makes of the payload: its mapping is
    merged in; a plugin without provider, or whose provider raises,
    leaves the payload as it is. *)
Definition contribution (payload : dict) (data : dict) : dict :=
  let python_module := get_default data "python_module" PNone in
  if truthy python_module
  then match get_labextension_config_python W python_module with
       | inr value => fst (py_update H payload value)
       | inl _ => payload
       end
  else payload.

(** The events of one plugin's provider: the call, and the error logged
    when the call or the merge raised. *)
Definition provider_events (payload : dict) (data : dict) : list event :=
  let python_module := get_default data "python_module" PNone in
  if truthy python_module
  then Invoke python_module ::
       match get_labextension_config_python W python_module with
       | inr value =>
           match snd (py_update H payload value) with
           | Some e => [LogError (Exc e)]
           | None => []
           end
       | inl e => [LogError (Exc e)]
       end
  else [].

(** [merge]: the payload after the plugins [items], in that order. *)
Definition merge (items : list (string * dict)) (payload : dict) : dict :=
  fold_left contribution (map snd items) payload.

Fixpoint merge_events (items : list (string * dict)) (payload : dict)
  : list event :=
  match items with
  | [] => []
  | item :: rest =>
      provider_events payload (snd item) ++
      merge_events rest (contribution payload (snd item))
  end.

Definition initial_payload : dict :=
  [("terminalsAvailable", terminals_available H)].

(** The lists and the payload [get] starts from. *)
Definition start : locals :=
  {| entries := []; bundles := core_bundles; css_files := core_css;
     configData := initial_payload |}.

(** The last line of [get]: the page, once the plugins are gathered. *)
Definition finish (main : pyval) (gathered : M locals) : M unit :=
  match gathered with
  | (t, inl e) => (t, inl e)
  | (t, inr st) =>
      (t ++ [Write (LabHtml
               {| ctx_static_prefix := static_prefix_of;
                  ctx_page_title := "JupyterLab Alpha Preview";
                  ctx_mathjax_url := mathjax_url H;
                  ctx_jupyterlab_main := main;
                  ctx_jupyterlab_css := css_files st;
                  ctx_jupyterlab_bundles := bundles st;
                  ctx_plugin_entries := entries st;
                  ctx_mathjax_config := "TeX-AMS_HTML-full,Safe";
                  ctx_jupyterlab_config := configData st |})], inr tt)
  end.

(** The plugin with the manifest data [data] leaves the key [k] of the
    payload alone: it has no provider, or its provider raises or returns
    a mapping without [k]. *)
Definition leaves_key (k : string) (data : dict) : Prop :=
  forall payload, lookup (contribution payload data) k = lookup payload k.

(** The asset plan of a request: what [lab.html] is rendered with, for
    the registry [labextensions] and the main entry point [main]. *)
Definition plan (labextensions : registry) (main : pyval) : context :=
  let items := sorted labextensions in
  {| ctx_static_prefix := static_prefix_of;
     ctx_page_title := "JupyterLab Alpha Preview";
     ctx_mathjax_url := mathjax_url H;
     ctx_jupyterlab_main := main;
     ctx_jupyterlab_css :=
       core_css ++ flat_map (plugin_css extension_prefix) items;
     ctx_jupyterlab_bundles :=
       core_bundles ++ flat_map (plugin_bundles extension_prefix) items;
     ctx_plugin_entries := flat_map plugin_entries_of items;
     ctx_mathjax_config := "TeX-AMS_HTML-full,Safe";
     ctx_jupyterlab_config := merge items initial_payload |}.

(** The request for [labextensions] wrote the lab page with the
    arguments [ctx], and nothing else. *)
Definition renders (labextensions : registry) (ctx : context) : Prop :=
  written (trace (get H W labextensions)) = [LabHtml ctx].

End Plan.

(** The page for a build without "main". *)
Definition error_page : page :=
  ErrorHtml 500 "JupyterLab Error" "JupyterLab Error" missing_build_msg.

(** The world [W] with [p] for the config providers. *)
Definition with_provider (W : World) (p : pyval -> exn + pyval) : World :=
  {| isfile := isfile W;
     get_labextension_manifest_data_by_folder :=
       get_labextension_manifest_data_by_folder W;
     get_labextension_config_python := p;
     find_labextension := find_labextension W;
     validate_labextension_folder := validate_labextension_folder W;
     get_labextension_manifest_data_by_name :=
       get_labextension_manifest_data_by_name W |}.

(** The world in which every provider that raises in [W] returns the empty
    mapping instead: "this plugin contributes nothing". *)
Definition quiet (W : World) : World :=
  with_provider W
    (fun python_module =>
       match get_labextension_config_python W python_module with
       | inl _ => inr (PDict [])
       | inr value => inr value
       end).

(** The plugin with the manifest data [data] writes nothing under the key
    [k]: it has no "python_module", or its provider raises, or the mapping
    its provider returns has no key [k]. *)
Definition silent_on (W : World) (k : string) (data : dict) : Prop :=
  let python_module := get_default data "python_module" PNone in
  truthy python_module = false \/
  (exists e, get_labextension_config_python W python_module = inl e) \/
  (exists d, get_labextension_config_python W python_module = inr (PDict d) /\
             lookup d k = None).

(** *** Registration, step by step *)

Section Steps.
Variable W : World.
Variables (name : string) (ext_config : dict).

Definition enabled : Prop :=
  exists v, lookup ext_config "enabled" = Some v /\ truthy v = true.

Definition disabled : Prop :=
  exists v, lookup ext_config "enabled" = Some v /\ truthy v = false.

Definition located (folder : string) : Prop :=
  find_labextension W name = inr (Some folder).

Definition validated (folder : string) : Prop :=
  validate_labextension_folder W name folder = inr [].

Definition has_manifest (data : dict) : Prop :=
  get_labextension_manifest_data_by_name W name = inr (Some data).

(** The plugin passes every step, with the manifest data [data]. *)
Definition passes (data : dict) : Prop :=
  enabled /\
  exists folder, located folder /\ validated folder /\ has_manifest data.

(** The plugin fails a step: it is disabled, or not found, or its folder
    has warnings, or it has no manifest data. *)
Definition fails : Prop :=
  disabled \/
  (enabled /\ find_labextension W name = inr None) \/
  (enabled /\ exists folder w ws,
      located folder /\
      validate_labextension_folder W name folder = inr (w :: ws)) \/
  (enabled /\ exists folder,
      located folder /\ validated folder /\
      get_labextension_manifest_data_by_name W name = inr None).
End Steps.

Definition is_str (v : pyval) : bool :=
  match v with PStr _ => true | _ => false end.

(** A manifest value of the documented shape: anything that is not a
    dictionary, or a dictionary whose "files" is a list of strings that is
    not empty when the dictionary has an "entry". *)
Definition well_formed_value (value : pyval) : bool :=
  match value with
  | PDict v =>
      match lookup v "files" with
      | Some (PList fnames) =>
          forallb is_str fnames &&
          (negb (has_entry v) || match fnames with [] => false | _ => true end)
      | _ => false
      end
  | _ => true
  end.

Definition well_formed_registry (labextensions : registry) : bool :=
  forallb (fun item => forallb well_formed_value (values (snd item)))
          labextensions.

(** ** [load_jupyter_server_extension]: the whole of it *)

Definition DEV_NOTE_NPM : string :=
"It looks like you're running JupyterLab from source.
If you're working on the TypeScript sources of JupyterLab, try running

    npm run watch

from the JupyterLab repo directory in another terminal window to have the
system incrementally watch and build JupyterLab's TypeScript for you, as you
make changes.
".

(** The [path] argument of a [FileFindHandler]: one folder or several. *)
Inductive path_arg : Type :=
| Path (p : string)
| Paths (ps : list string).

(** A handler class with the arguments of its [initialize]. *)
Inductive handler_class : Type :=
| LabHandler (labextensions : registry)
| FileFindHandler (path : path_arg) (no_cache_paths : option (list string)).

(** One entry of a handler list: the URL pattern and what serves it. *)
Record route : Type := {
  pattern : string;
  serves : handler_class
}.

Inductive startup_event : Type :=
| LogInfo (text : string)
| During (ev : event)
| AddHandlers (host_pattern : string) (routes : list route).

(** The notebook application the extension is loaded into, and the
    library functions only [load_jupyter_server_extension] calls. *)
Record Nbapp : Type := {
  (** [os.path.realpath] *)
  realpath : string -> string;
  (** [os.path.exists] *)
  path_exists : string -> bool;
  (** [jupyter_core.paths.jupyter_path] *)
  jupyter_path : string -> list string;
  (** the name of the lab section of the configuration *)
  CONFIG_SECTION : string;
  (** [nbapp.config]: section name to the [labextensions] of the section,
      when the section has them *)
  nb_config : list (string * option (list (string * dict)));
  (** [nbapp.web_app.settings], the string-valued ones *)
  settings : list (string * string)
}.

Section Startup.
Variable H : Host.
Variable W : World.
Variable nbapp : Nbapp.

(** Lines 130-134: the messages. *)
Definition startup_messages : list startup_event :=
  let base_dir := realpath nbapp (path_join H (HERE H) "..") in
  let dev_mode := path_exists nbapp (path_join H base_dir ".git") in
  LogInfo ("JupyterLab alpha preview extension loaded from " ++ HERE H)
  :: (if dev_mode then [LogInfo DEV_NOTE_NPM] else []).

(** Line 137 and the [lab_config.labextensions] of line 142: the default
    [{}] has no [labextensions], nor has a section without them. *)
Definition configured_labextensions : option (list (string * dict)) :=
  match lookup (nb_config nbapp) (CONFIG_SECTION nbapp) with
  | Some lab_config => lab_config
  | None => None
  end.

(** Lines 158-164 *)
Definition default_handlers (out : registry) : list route :=
  [ {| pattern := PREFIX ++ "/?"; serves := LabHandler out |};
    {| pattern := PREFIX ++ "/(.*)";
       serves := FileFindHandler (Path (BUILT_FILES H)) None |} ].

(** Lines 168-174 *)
Definition labextension_handler (base_url : string) : route :=
  {| pattern := ujoin H base_url EXTENSION_PREFIX ++ "/(.*)";
     serves := FileFindHandler (Paths (jupyter_path nbapp "labextensions"))
                               (Some ["/"]) |}.

(** [load_jupyter_server_extension(nbapp)]: what it logs and adds to the
    web application, and how it ends. *)
Definition load_jupyter_server_extension : list startup_event * (exn + unit) :=
  match configured_labextensions with
  | None => (startup_messages, inl (Raised "AttributeError"))
  | Some labextensions =>
      match load_labextensions W labextensions with
      | (t, inl e) => (startup_messages ++ map During t, inl e)
      | (t, inr out) =>
          match lookup (settings nbapp) "base_url" with
          | None =>
              (startup_messages ++ map During t,
               inl (KeyError (PStr "base_url")))
          | Some base_url =>
              (startup_messages ++ map During t ++
               [AddHandlers ".*$"
                  (map (fun h => {| pattern := ujoin H base_url (pattern h);
                                    serves := serves h |})
                       (default_handlers out));
                AddHandlers ".*$" [labextension_handler base_url]],
               inr tt)
          end
      end
  end.

End Startup.

(** The routes a startup added, in order. *)
Fixpoint added_routes (t : list startup_event) : list route :=
  match t with
  | [] => []
  | AddHandlers _ routes :: rest => routes ++ added_routes rest
  | _ :: rest => added_routes rest
  end.

(** The messages a startup logged, in order. *)
Fixpoint logged_infos (t : list startup_event) : list string :=
  match t with
  | [] => []
  | LogInfo text :: rest => text :: logged_infos rest
  | _ :: rest => logged_infos rest
  end.

(** The "python_module" of the plugins whose provider a request calls. *)
Definition called_modules (items : list (string * dict)) : list pyval :=
  filter truthy
         (map (fun item => get_default (snd item) "python_module" PNone) items).

(** ** A server to run the handler on

    Concrete library functions (POSIX paths, URL joining) and a small
    installation, for running [get] and the registration. *)

Module Demo.

Fixpoint strip_leading (s : string) : string :=
  match s with
  | String "/" rest => strip_leading rest
  | _ => s
  end.

Fixpoint strip_trailing (s : string) : string :=
  match s with
  | EmptyString => EmptyString
  | String c rest =>
      match strip_trailing rest with
      | EmptyString => if Ascii.eqb c "/" then EmptyString else String c EmptyString
      | rest' => String c rest'
      end
  end.

(** [url_path_join(a, b)] for an [a] that starts with a slash and a [b]
    that does not end with one. *)
Definition url_path_join (a b : string) : string :=
  match strip_trailing (strip_leading a), strip_leading b with
  | EmptyString, b' => "/" ++ b'
  | a', EmptyString => "/" ++ a'
  | a', b' => "/" ++ a' ++ "/" ++ b'
  end.

(** [posixpath.join(a, b)] for a relative [b] *)
Definition posix_join (a b : string) : string := a ++ "/" ++ b.

(** The string up to its last dot, and from it on. *)
Fixpoint at_last_dot (s : string) : option (string * string) :=
  match s with
  | EmptyString => None
  | String c rest =>
      match at_last_dot rest with
      | Some (root, ext) => Some (String c root, ext)
      | None => if Ascii.eqb c "." then Some (EmptyString, s) else None
      end
  end.

Fixpoint has_slash (s : string) : bool :=
  match s with
  | EmptyString => false
  | String c rest => Ascii.eqb c "/" || has_slash rest
  end.

(** What follows the last slash consists of dots. *)
Fixpoint basename_all_dots (s : string) : bool :=
  match s with
  | EmptyString => true
  | String c rest =>
      if has_slash s then basename_all_dots rest
      else Ascii.eqb c "." && basename_all_dots rest
  end.

(** [posixpath.splitext] *)
Definition posix_splitext (p : string) : string * string :=
  match at_last_dot p with
  | Some (root, ext) =>
      if has_slash ext || basename_all_dots root then (p, EmptyString)
      else (root, ext)
  | None => (p, EmptyString)
  end.

Definition host : Host :=
  {| ujoin := url_path_join;
     path_join := posix_join;
     splitext := posix_splitext;
     str_of := fun _ => "<object>";
     update_from := fun d _ => (d, Some TypeError);
     HERE := "/srv/jupyterlab";
     base_url := "/";
     mathjax_url := "/static/components/MathJax/MathJax.js";
     terminals_available := PBool true |}.

Definition manifest (name : string) (files : list string) : dict :=
  [(name, PDict [("entry", PStr (name ++ "/index"));
                 ("files", PList (map PStr files))])].

Definition build_manifest : dict :=
  manifest "main" ["main.bundle.js"; "main.css"].

(** Providers: [a_config] and [b_config] both set "x"; [broken] raises. *)
Definition provider (python_module : pyval) : exn + pyval :=
  match python_module with
  | PStr m =>
      if m =? "a_config" then inr (PDict [("x", PInt 1)])
      else if m =? "b_config" then inr (PDict [("x", PInt 2)])
      else inl (Raised ("No module named " ++ m)%string)
  | _ => inl TypeError
  end.

(** Installed: every name but "ghost"; "shaky" has warnings; "hollow"
    has no manifest data; "empty" declares no files; "bare" declares no
    "files" at all; "twice" lists one stylesheet in two entries. *)
Definition manifest_of (name : string) : option dict :=
  if name =? "hollow" then None
  else if name =? "empty"
  then Some [("empty", PDict [("entry", PStr "empty/index");
                              ("files", PList [])])]
  else if name =? "bare"
  then Some [("bare", PDict [("entry", PStr "bare/index")])]
  else if name =? "twice"
  then Some [("twice", PDict [("entry", PStr "twice/index");
                              ("files", PList [PStr "twice.js";
                                               PStr "style.css"])]);
             ("extra", PDict [("files", PList [PStr "style.css"])])]
  else Some (manifest name [(name ++ ".js")%string; (name ++ ".css")%string]).

Definition world : World :=
  {| isfile := fun p => p =? "/srv/jupyterlab/build/main.css";
     get_labextension_manifest_data_by_folder := fun _ => inr build_manifest;
     get_labextension_config_python := provider;
     find_labextension := fun name =>
       if name =? "ghost" then inr None
       else inr (Some ("/usr/share/jupyter/labextensions/" ++ name)%string);
     validate_labextension_folder := fun name _ =>
       if name =? "shaky" then inr ["     X has shaky entry point?"]
       else inr [];
     get_labextension_manifest_data_by_name := fun name =>
       inr (manifest_of name) |}.

(** The same installation, with a build that has no "main". *)
Definition unbuilt : World :=
  {| isfile := fun _ => false;
     get_labextension_manifest_data_by_folder := fun _ => inr [];
     get_labextension_config_python := provider;
     find_labextension := find_labextension world;
     validate_labextension_folder := validate_labextension_folder world;
     get_labextension_manifest_data_by_name :=
       get_labextension_manifest_data_by_name world |}.

Definition on  : list (string * pyval) := [("enabled", PBool true)].
Definition off : list (string * pyval) := [("enabled", PBool false)].
Definition on_with (python_module : string) : list (string * pyval) :=
  [("enabled", PBool true); ("python_module", PStr python_module)].

(** A registered plugin: its manifest and its "python_module". *)
Definition plugin (name : string) (python_module : pyval) : string * dict :=
  (name, manifest name [(name ++ ".js")%string; (name ++ ".css")%string]
           ++ [("python_module", python_module)]).

(** Three registered plugins, in the order they were registered. *)
Definition three : registry :=
  [plugin "b" (PStr "b_config"); plugin "c" PNone;
   plugin "a" (PStr "a_config")].

(** The same registry, filled in another order. *)
Definition three' : registry :=
  [plugin "a" (PStr "a_config"); plugin "b" (PStr "b_config");
   plugin "c" PNone].

(** A registry with a plugin whose provider raises. *)
Definition with_broken : registry :=
  [plugin "z" (PStr "broken"); plugin "a" (PStr "a_config")].

(** A configuration section. *)
Definition configured : list (string * dict) :=
  [("foo", on); ("ghost", on); ("shaky", on); ("hollow", on);
   ("zzz", off); ("a", on_with "a_config")].

Definition registered : registry :=
  [plugin "foo" PNone; plugin "a" (PStr "a_config")].

(** What registration makes of "empty", "bare" and "twice". *)
Definition empty_registry : registry :=
  [("empty", [("empty", PDict [("entry", PStr "empty/index");
                               ("files", PList [])]);
              ("python_module", PNone)])].

Definition bare_registry : registry :=
  [("bare", [("bare", PDict [("entry", PStr "bare/index")]);
             ("python_module", PNone)])].

Definition twice_registry : registry :=
  [("twice", [("twice", PDict [("entry", PStr "twice/index");
                               ("files", PList [PStr "twice.js";
                                                PStr "style.css"])]);
              ("extra", PDict [("files", PList [PStr "style.css"])]);
              ("python_module", PNone)])].

End Demo.

(** The notebook application of the demo server. *)
Module DemoApp.

Definition app (dev_mode : bool) : Nbapp :=
  {| realpath := fun p => if p =? "/srv/jupyterlab/.." then "/srv" else p;
     path_exists := fun p => if p =? "/srv/.git" then dev_mode else false;
     jupyter_path := fun sub =>
       ["/home/demo/.local/share/jupyter/" ++ sub;
        "/usr/share/jupyter/" ++ sub]%string;
     CONFIG_SECTION := "LabApp";
     nb_config := [("NotebookApp", None); ("LabApp", Some Demo.configured)];
     settings := [("base_url", "/")] |}.

(** An application without the lab section. *)
Definition bare_app : Nbapp :=
  {| realpath := realpath (app false);
     path_exists := path_exists (app false);
     jupyter_path := jupyter_path (app false);
     CONFIG_SECTION := "LabApp";
     nb_config := [("NotebookApp", None)];
     settings := [("base_url", "/")] |}.

(** A configuration whose second extension has no "enabled". *)
Definition half_configured : list (string * dict) :=
  [("foo", Demo.on); ("a", [("python_module", PStr "a_config")]);
   ("b", Demo.on)].

(** The demo installation with a build whose "main" has no "entry". *)
Definition entryless : World :=
  {| isfile := isfile Demo.world;
     get_labextension_manifest_data_by_folder := fun _ =>
       inr [("main", PDict [("files", PList [PStr "main.bundle.js"])])];
     get_labextension_config_python := Demo.provider;
     find_labextension := find_labextension Demo.world;
     validate_labextension_folder := validate_labextension_folder Demo.world;
     get_labextension_manifest_data_by_name :=
       get_labextension_manifest_data_by_name Demo.world |}.

(** Two registered plugins without provider: no module, an empty one. *)
Definition plain : registry :=
  [Demo.plugin "foo" PNone; Demo.plugin "c" (PStr "")].

End DemoApp.

(** Providers that write different keys, and one that raises. *)
Module DemoMerge.

Definition provider (python_module : pyval) : exn + pyval :=
  match python_module with
  | PStr m =>
      if m =? "y_config" then inr (PDict [("y", PInt 3)])
      else Demo.provider python_module
  | _ => Demo.provider python_module
  end.

Definition world : World := with_provider Demo.world provider.

(** In name order: "a" and "b" write "x", "c" has no provider, "z" writes
    "y". *)
Definition four : registry :=
  [Demo.plugin "b" (PStr "b_config"); Demo.plugin "z" (PStr "y_config");
   Demo.plugin "a" (PStr "a_config"); Demo.plugin "c" PNone].

(** In name order: "a" writes "x", the provider of "m" raises, "z" writes
    "y". *)
Definition with_failure : registry :=
  [Demo.plugin "z" (PStr "y_config"); Demo.plugin "m" (PStr "broken");
   Demo.plugin "a" (PStr "a_config")].

End DemoMerge.

(** * Properties *)

(** ** The order of names *)

Section NameOrder.

Lemma ascii_compare_refl (a : ascii) : Ascii.compare a a = Eq.
Proof. unfold Ascii.compare. apply N.compare_refl. Qed.

Lemma ascii_compare_lt_trans (a b c : ascii) :
  Ascii.compare a b = Lt -> Ascii.compare b c = Lt -> Ascii.compare a c = Lt.
Proof.
  unfold Ascii.compare. rewrite !N.compare_lt_iff. apply N.lt_trans.
Qed.

Lemma string_compare_refl (s : string) : String.compare s s = Eq.
Proof.
  induction s as [|a s IH]; simpl; [reflexivity|].
  now rewrite ascii_compare_refl.
Qed.

Lemma string_compare_lt_trans (s1 : string) :
  forall s2 s3,
    String.compare s1 s2 = Lt -> String.compare s2 s3 = Lt ->
    String.compare s1 s3 = Lt.
Proof.
  induction s1 as [|a s1 IH]; intros [|b s2] [|c s3]; simpl;
    try congruence.
  destruct (Ascii.compare a b) eqn:Hab; try discriminate;
    destruct (Ascii.compare b c) eqn:Hbc; try discriminate; intros H12 H23.
  - apply Ascii.compare_eq_iff in Hab, Hbc. subst.
    rewrite ascii_compare_refl. eauto.
  - apply Ascii.compare_eq_iff in Hab. subst. now rewrite Hbc.
  - apply Ascii.compare_eq_iff in Hbc. subst. now rewrite Hab.
  - now rewrite (ascii_compare_lt_trans _ _ _ Hab Hbc).
Qed.

Lemma ltb_compare (s1 s2 : string) :
  (s1 <? s2)%string = true <-> String.compare s1 s2 = Lt.
Proof.
  unfold String.ltb. destruct (String.compare s1 s2); split; congruence.
Qed.

Lemma leb_ltb_or_eq (s1 s2 : string) :
  (s1 <=? s2)%string = true <-> (s1 <? s2)%string = true \/ s1 = s2.
Proof.
  unfold String.leb, String.ltb.
  destruct (String.compare s1 s2) eqn:Hc; split; intros Hyp; auto.
  - right. now apply String.compare_eq_iff.
  - destruct Hyp as [Hyp|Hyp]; [discriminate|]. subst.
    rewrite string_compare_refl in Hc. discriminate.
Qed.

Lemma leb_refl (s : string) : (s <=? s)%string = true.
Proof. apply leb_ltb_or_eq. now right. Qed.

Lemma ltb_trans (s1 s2 s3 : string) :
  (s1 <? s2)%string = true -> (s2 <? s3)%string = true ->
  (s1 <? s3)%string = true.
Proof. rewrite !ltb_compare. apply string_compare_lt_trans. Qed.

Lemma leb_trans (s1 s2 s3 : string) :
  (s1 <=? s2)%string = true -> (s2 <=? s3)%string = true ->
  (s1 <=? s3)%string = true.
Proof.
  rewrite !leb_ltb_or_eq.
  intros [H12 | ->] [H23 | ->]; eauto using ltb_trans.
Qed.

Lemma ltb_irrefl (s : string) : (s <? s)%string = false.
Proof. unfold String.ltb. now rewrite string_compare_refl. Qed.

Lemma ltb_leb (s1 s2 : string) :
  (s1 <? s2)%string = true -> (s1 <=? s2)%string = true.
Proof. intros. apply leb_ltb_or_eq. now left. Qed.

Lemma leb_false_ltb (s1 s2 : string) :
  (s1 <=? s2)%string = false -> (s2 <? s1)%string = true.
Proof.
  unfold String.leb, String.ltb. rewrite (String.compare_antisym s2 s1).
  destruct (String.compare s1 s2); simpl; congruence.
Qed.

Lemma ltb_not_leb (s1 s2 : string) :
  (s1 <? s2)%string = true -> (s2 <=? s1)%string = false.
Proof.
  unfold String.leb, String.ltb. rewrite (String.compare_antisym s2 s1).
  destruct (String.compare s1 s2); simpl; congruence.
Qed.

End NameOrder.

(** ** [sorted] *)

Section SortedFacts.

Lemma insert_item_perm (x : string * dict) (l : list (string * dict)) :
  Permutation (x :: l) (insert_item x l).
Proof.
  induction l as [|y l IH]; simpl; [reflexivity|].
  destruct (fst x <=? fst y)%string; [reflexivity|].
  rewrite perm_swap. now constructor.
Qed.

Lemma sorted_perm (l : list (string * dict)) : Permutation l (sorted l).
Proof.
  induction l as [|x l IH]; simpl; [constructor|].
  rewrite <- insert_item_perm. now constructor.
Qed.

Lemma insert_item_sorted (x : string * dict) (l : list (string * dict)) :
  StronglySorted name_le l -> StronglySorted name_le (insert_item x l).
Proof.
  induction 1 as [|y l Hs IH Hy]; simpl.
  - repeat constructor.
  - destruct (fst x <=? fst y)%string eqn:Hxy.
    + constructor; [now constructor|].
      constructor; [exact Hxy|].
      eapply Forall_impl; [|exact Hy].
      intros z Hz. unfold name_le in *. eauto using leb_trans.
    + constructor; [exact IH|].
      eapply Permutation_Forall; [apply insert_item_perm|].
      constructor; [|exact Hy].
      unfold name_le. now apply ltb_leb, leb_false_ltb.
Qed.

Lemma sorted_sorted (l : list (string * dict)) :
  StronglySorted name_le (sorted l).
Proof.
  induction l as [|x l IH]; simpl; [constructor|].
  now apply insert_item_sorted.
Qed.

(** A sorted list of items with distinct names is the only sorted
    arrangement of its items. *)
Lemma sorted_unique (l1 : list (string * dict)) :
  forall l2,
    NoDup (keys l1) -> Permutation l1 l2 ->
    StronglySorted name_le l1 -> StronglySorted name_le l2 -> l1 = l2.
Proof.
  induction l1 as [|x l1 IH]; intros l2 Hnd Hp Hs1 Hs2.
  - now apply Permutation_nil in Hp.
  - destruct l2 as [|y l2].
    { apply Permutation_sym, Permutation_nil in Hp. discriminate. }
    inversion Hs1 as [|? ? Hs1' Hx]; subst.
    inversion Hs2 as [|? ? Hs2' Hy]; subst.
    assert (Hxy : x = y).
    { assert (Hin_y : In y (x :: l1))
        by (eapply Permutation_in; [symmetry; exact Hp|now left]).
      assert (Hin_x : In x (y :: l2))
        by (eapply Permutation_in; [exact Hp|now left]).
      destruct Hin_y as [Heq|Hin_y]; [exact Heq|].
      destruct Hin_x as [Heq|Hin_x]; [now symmetry|].
      rewrite Forall_forall in Hx, Hy.
      assert (Hk : fst x = fst y)
        by (apply String.leb_antisym; [apply Hx|apply Hy]; assumption).
      exfalso. simpl in Hnd. inversion Hnd as [|? ? Hnotin _]; subst.
      apply Hnotin. rewrite Hk. unfold keys. now apply in_map. }
    subst y. f_equal.
    apply IH; auto.
    + simpl in Hnd. now inversion Hnd.
    + now apply Permutation_cons_inv in Hp.
Qed.

(** [sorted] does not depend on the order in which the registry was
    filled. *)
Lemma sorted_permutation_eq (l1 l2 : list (string * dict)) :
  NoDup (keys l1) -> Permutation l1 l2 -> sorted l1 = sorted l2.
Proof.
  intros Hnd Hp. apply sorted_unique.
  - eapply Permutation_NoDup; [|exact Hnd].
    unfold keys. apply Permutation_map, sorted_perm.
  - rewrite <- (sorted_perm l1), <- (sorted_perm l2). exact Hp.
  - apply sorted_sorted.
  - apply sorted_sorted.
Qed.

End SortedFacts.

(** ** Dictionaries *)

Section MappingFacts.
Variable V : Type.
Implicit Types (d : list (string * V)) (k : string) (v : V).

Lemma lookup_setitem_same d k v : lookup (setitem d k v) k = Some v.
Proof.
  induction d as [|[k' v'] d IH]; simpl.
  - now rewrite String.eqb_refl.
  - destruct (k' =? k) eqn:E; simpl; rewrite E; auto.
Qed.

Lemma lookup_setitem_other d k k' v :
  k <> k' -> lookup (setitem d k v) k' = lookup d k'.
Proof.
  intros Hne. induction d as [|[k0 v0] d IH]; simpl.
  - apply String.eqb_neq in Hne. now rewrite Hne.
  - destruct (k0 =? k) eqn:E; simpl.
    + apply String.eqb_eq in E. subst k0.
      apply String.eqb_neq in Hne. now rewrite Hne.
    + now rewrite IH.
Qed.

Lemma lookup_None_keys d k : lookup d k = None <-> ~ In k (keys d).
Proof.
  induction d as [|[k' v'] d IH]; simpl; [tauto|].
  destruct (k' =? k) eqn:E.
  - apply String.eqb_eq in E. split; [discriminate|tauto].
  - apply String.eqb_neq in E. rewrite IH. tauto.
Qed.

Lemma lookup_Some_In d k v : lookup d k = Some v -> In (k, v) d.
Proof.
  induction d as [|[k' v'] d IH]; simpl; [discriminate|].
  destruct (k' =? k) eqn:E.
  - apply String.eqb_eq in E. intros [= ->]. subst. now left.
  - auto.
Qed.

Lemma In_lookup d k v : NoDup (keys d) -> In (k, v) d -> lookup d k = Some v.
Proof.
  induction d as [|[k' v'] d IH]; simpl; [tauto|].
  intros Hnd [[= -> ->]|Hin].
  - now rewrite String.eqb_refl.
  - inversion Hnd as [|? ? Hnotin Hnd']; subst.
    destruct (k' =? k) eqn:E; [|auto].
    apply String.eqb_eq in E. subst k'. exfalso. apply Hnotin.
    change k with (fst (k, v)). now apply in_map.
Qed.

Lemma keys_setitem d k v k' :
  In k' (keys (setitem d k v)) <-> k' = k \/ In k' (keys d).
Proof.
  induction d as [|[k0 v0] d IH]; simpl.
  - intuition.
  - destruct (k0 =? k) eqn:E; simpl.
    + apply String.eqb_eq in E. subst. intuition.
    + rewrite IH. intuition.
Qed.

Lemma setitem_NoDup d k v : NoDup (keys d) -> NoDup (keys (setitem d k v)).
Proof.
  induction d as [|[k0 v0] d IH]; simpl; intros Hnd.
  - repeat constructor. simpl. tauto.
  - inversion Hnd as [|? ? Hnotin Hnd']; subst.
    destruct (k0 =? k) eqn:E; simpl.
    + now constructor.
    + constructor; [|auto].
      rewrite keys_setitem. apply String.eqb_neq in E. intuition.
Qed.

Lemma setitem_fresh d k v : ~ In k (keys d) -> setitem d k v = d ++ [(k, v)].
Proof.
  induction d as [|[k0 v0] d IH]; simpl; intros Hnotin; [reflexivity|].
  destruct (k0 =? k) eqn:E.
  - apply String.eqb_eq in E. tauto.
  - rewrite IH; tauto.
Qed.

Lemma In_setitem d k v k' v' :
  In (k', v') (setitem d k v) -> (k' = k /\ v' = v) \/ In (k', v') d.
Proof.
  induction d as [|[k0 v0] d IH]; simpl.
  - intros [[= <- <-]|[]]. now left.
  - destruct (k0 =? k) eqn:E; simpl.
    + apply String.eqb_eq in E. subst k0.
      intros [[= <- <-]|Hin]; auto.
    + intros [Heq|Hin]; auto. apply IH in Hin. tauto.
Qed.

(** A key [other] does not have keeps the value it had. *)
Lemma lookup_update_old (other : list (string * V)) :
  forall d k, lookup other k = None -> lookup (update d other) k = lookup d k.
Proof.
  unfold update.
  induction other as [|[k0 v0] other IH]; simpl; intros d k Hl; [reflexivity|].
  destruct (k0 =? k) eqn:E; [discriminate|].
  rewrite IH by assumption.
  apply lookup_setitem_other. now apply String.eqb_neq.
Qed.

(** [update] is last-writer-wins: a key of [other] gets [other]'s value. *)
Lemma lookup_update_new (other : list (string * V)) :
  forall d k v,
    NoDup (keys other) -> lookup other k = Some v ->
    lookup (update d other) k = Some v.
Proof.
  induction other as [|[k0 v0] other IH]; simpl; intros d k v Hnd Hl;
    [discriminate|].
  inversion Hnd as [|? ? Hnotin Hnd']; subst.
  destruct (k0 =? k) eqn:E.
  - apply String.eqb_eq in E. injection Hl as <-. subst k0.
    change (update d ((k, v0) :: other))
      with (update (setitem d k v0) other).
    rewrite lookup_update_old by now apply lookup_None_keys.
    apply lookup_setitem_same.
  - change (update d ((k0, v0) :: other))
      with (update (setitem d k0 v0) other).
    now apply IH.
Qed.

End MappingFacts.

(** ** Computations *)

Section MonadFacts.
Context {A B : Type}.

Lemma bind_ret_l (a : A) (f : A -> M B) : bind (ret a) f = f a.
Proof. unfold bind, ret. now destruct (f a). Qed.

Lemma bind_lift_ok (a : A) (f : A -> M B) : bind (lift (inr a)) f = f a.
Proof. apply bind_ret_l. Qed.

Lemma bind_ext (m : M A) (f g : A -> M B) :
  (forall a, f a = g a) -> bind m f = bind m g.
Proof.
  intros Hfg. unfold bind. destruct m as [t [e|a]]; [reflexivity|].
  now rewrite Hfg.
Qed.

Lemma bind_silent (m : M A) (a : A) (f : A -> M B) :
  m = ([], inr a) -> bind m f = f a.
Proof. intros ->. apply bind_ret_l. Qed.

Lemma bind_fail (m : M A) (t : list event) (e : exn) (f : A -> M B) :
  m = (t, inl e) -> bind m f = (t, inl e).
Proof. now intros ->. Qed.

Lemma bind_ok (m : M A) (f : A -> M B) (t : list event) (b : B) :
  bind m f = (t, inr b) ->
  exists t1 a t2, m = (t1, inr a) /\ f a = (t2, inr b) /\ t = t1 ++ t2.
Proof.
  unfold bind. destruct m as [t1 [e|a]]; [discriminate|].
  destruct (f a) as [t2 r] eqn:E. intros [= <- ->]. eauto 6.
Qed.

Lemma trace_bind (m : M A) (f : A -> M B) :
  trace (bind m f) =
  trace m ++ match outcome m with inr a => trace (f a) | inl _ => [] end.
Proof.
  unfold bind, trace, outcome. destruct m as [t [e|a]]; simpl.
  - now rewrite app_nil_r.
  - now destruct (f a).
Qed.

Lemma outcome_bind (m : M A) (f : A -> M B) :
  outcome (bind m f) =
  match outcome m with inr a => outcome (f a) | inl e => inl e end.
Proof.
  unfold bind, outcome. destruct m as [t [e|a]]; simpl; [reflexivity|].
  now destruct (f a).
Qed.

End MonadFacts.

Section LoopFacts.
Context {A S : Type}.
Variable body : S -> A -> M S.

(** A property of traces that every round of a loop has, the loop has. *)
Lemma for_each_trace (P : list event -> Prop) :
  P [] -> (forall t1 t2, P t1 -> P t2 -> P (t1 ++ t2)) ->
  (forall s x, P (trace (body s x))) ->
  forall l s, P (trace (for_each body l s)).
Proof.
  intros Hnil Happ Hbody. induction l as [|x l IH]; intros s; simpl.
  - exact Hnil.
  - rewrite trace_bind. apply Happ; [apply Hbody|].
    destruct (outcome (body s x)); auto.
Qed.

Lemma for_each_silent :
  (forall s x, trace (body s x) = []) ->
  forall l s, trace (for_each body l s) = [].
Proof.
  intros Hb. apply (for_each_trace (fun t => t = [])); auto.
  now intros t1 t2 -> ->.
Qed.

Lemma for_each_app (l1 l2 : list A) (s : S) :
  for_each body (l1 ++ l2) s =
  (s' <- for_each body l1 s ;; for_each body l2 s').
Proof.
  revert s. induction l1 as [|x l1 IH]; intros s.
  - change (for_each body l2 s = bind (ret s) (for_each body l2)).
    now rewrite bind_ret_l.
  - simpl. unfold bind at 1 3. destruct (body s x) as [t [e|s1]]; [reflexivity|].
    rewrite IH. unfold bind.
    destruct (for_each body l1 s1) as [t1 [e1|s2]]; [reflexivity|].
    destruct (for_each body l2 s2) as [t2 r2].
    now rewrite app_assoc.
Qed.

End LoopFacts.

Lemma written_app (t1 t2 : list event) :
  written (t1 ++ t2) = written t1 ++ written t2.
Proof.
  induction t1 as [|[x|m|p] t1 IH]; simpl; auto. now rewrite IH.
Qed.

Lemma invoked_app (t1 t2 : list event) :
  invoked (t1 ++ t2) = invoked t1 ++ invoked t2.
Proof.
  induction t1 as [|[x|m|p] t1 IH]; simpl; auto. now rewrite IH.
Qed.

Lemma errors_app (t1 t2 : list event) :
  errors (t1 ++ t2) = errors t1 ++ errors t2.
Proof.
  induction t1 as [|[x|m|p] t1 IH]; simpl; auto. now rewrite IH.
Qed.

(** ** The loops of [get] *)

Tactic Notation "bind_inv" hyp(Hyp) "as" ident(a) ident(H1) ident(H2) :=
  let t1 := fresh "t" in
  let t2 := fresh "t" in
  let Ht := fresh "Ht" in
  apply bind_ok in Hyp;
  destruct Hyp as (t1 & a & t2 & H1 & H2 & Ht).

Lemma add_assets_nil (st : locals) : add_assets st [] [] [] = st.
Proof. destruct st. unfold add_assets. simpl. now rewrite !app_nil_r. Qed.

Lemma add_assets_add (st : locals) es bs cs es' bs' cs' :
  add_assets (add_assets st es bs cs) es' bs' cs' =
  add_assets st (es ++ es') (bs ++ bs') (cs ++ cs').
Proof. unfold add_assets. simpl. now rewrite !app_assoc. Qed.

Section Assets.
Variable H : Host.
Variables prefix name : string.

Lemma getitem_ok (d : dict) (k : string) (t : list event) (v : pyval) :
  getitem d k = (t, inr v) -> t = [] /\ lookup d k = Some v.
Proof.
  unfold getitem. destruct (lookup d k); intros [= <- <-]; auto.
Qed.

Lemma getitem_trace (d : dict) (k : string) : trace (getitem d k) = [].
Proof. unfold getitem. now destruct (lookup d k). Qed.

Lemma css_step_trace (st : locals) (fname : pyval) :
  trace (css_step H prefix name st fname) = [].
Proof.
  destruct fname; simpl; auto.
  now destruct (snd (splitext H s) =? ".css").
Qed.

Lemma css_step_ok (st st' : locals) (fname : pyval) (t : list event) :
  css_step H prefix name st fname = (t, inr st') ->
  st' = add_assets st [] [] (css_urls H prefix name [fname]).
Proof.
  destruct fname; simpl; try discriminate. unfold is_css.
  destruct (snd (splitext H s) =? ".css"); intros [= <- <-]; simpl.
  - destruct st; unfold add_assets, append_css; simpl.
    now rewrite !app_nil_r.
  - now rewrite add_assets_nil.
Qed.

Lemma css_loop_ok (fnames : list pyval) :
  forall (st st' : locals) (t : list event),
    for_each (css_step H prefix name) fnames st = (t, inr st') ->
    st' = add_assets st [] [] (css_urls H prefix name fnames).
Proof.
  induction fnames as [|f fnames IH]; simpl; intros st st' t Hrun.
  - injection Hrun as <- <-. now rewrite add_assets_nil.
  - bind_inv Hrun as st1 Hstep Hrest.
    apply css_step_ok in Hstep. apply IH in Hrest.
    subst. simpl. rewrite add_assets_add. simpl.
    now rewrite app_nil_r.
Qed.

Lemma value_step_trace (st : locals) (value : pyval) :
  trace (value_step H prefix name st value) = [].
Proof.
  destruct value; simpl; auto.
  rewrite trace_bind.
  assert (Hfirst :
    forall m : M locals,
      m = (if truthy (get_default d "entry" PNone)
           then
             e <- getitem d "entry" ;;
             files <- getitem d "files" ;;
             f0 <- lift (first_item files) ;;
             ret (append_bundle (append_entry st e)
                    (extension_url H prefix name f0))
           else ret st) ->
      trace m = []).
  { intros m ->. destruct (truthy _); [|reflexivity].
    rewrite trace_bind, getitem_trace. simpl.
    destruct (outcome (getitem d "entry")); [reflexivity|].
    rewrite trace_bind, getitem_trace. simpl.
    destruct (outcome (getitem d "files")) as [|files]; [reflexivity|].
    rewrite trace_bind. simpl.
    now destruct (first_item files). }
  rewrite (Hfirst _ eq_refl). simpl.
  match goal with |- match outcome ?m with _ => _ end = _ =>
    destruct (outcome m); [reflexivity|] end.
  rewrite trace_bind, getitem_trace. simpl.
  destruct (outcome (getitem d "files")) as [|files]; [reflexivity|].
  rewrite trace_bind. simpl.
  destruct (items_of files); [reflexivity|].
  apply for_each_silent. apply css_step_trace.
Qed.

Lemma value_step_ok (st st' : locals) (value : pyval) (t : list event) :
  value_step H prefix name st value = (t, inr st') ->
  st' = add_assets st (value_entries value)
          (value_bundles H prefix name value)
          (value_css H prefix name value).
Proof.
  destruct value; simpl; try (intros [= <- <-]; now rewrite add_assets_nil).
  intros Hrun. bind_inv Hrun as st1 Hbundle Hcss.
  bind_inv Hcss as files Hget Hcss.
  apply getitem_ok in Hget as [-> Hfiles].
  bind_inv Hcss as fnames Hiter Hcss.
  apply css_loop_ok in Hcss. subst st'.
  unfold lift in Hiter. injection Hiter as <- Hitems.
  unfold declared_files, has_entry, first_file. rewrite Hfiles, Hitems.
  destruct (truthy (get_default d "entry" PNone)) eqn:Hentry.
  - bind_inv Hbundle as e He Hbundle. apply getitem_ok in He as [-> He].
    bind_inv Hbundle as files' Hget' Hbundle.
    apply getitem_ok in Hget' as [-> Hfiles'].
    bind_inv Hbundle as f0 Hfirst Hbundle.
    unfold lift in Hfirst. injection Hfirst as <- Hfirst.
    injection Hbundle as <- <-.
    rewrite Hfiles in Hfiles'. injection Hfiles' as <-.
    rewrite Hfirst. unfold get_default. rewrite He.
    unfold add_assets, append_bundle, append_entry. simpl.
    now rewrite !app_nil_r.
  - injection Hbundle as <- <-. reflexivity.
Qed.

Lemma values_loop_ok (vs : list pyval) :
  forall (st st' : locals) (t : list event),
    for_each (value_step H prefix name) vs st = (t, inr st') ->
    st' = add_assets st (flat_map value_entries vs)
            (flat_map (value_bundles H prefix name) vs)
            (flat_map (value_css H prefix name) vs).
Proof.
  induction vs as [|v vs IH]; simpl; intros st st' t Hrun.
  - injection Hrun as <- <-. now rewrite add_assets_nil.
  - bind_inv Hrun as st1 Hstep Hrest.
    apply value_step_ok in Hstep. apply IH in Hrest.
    subst. now rewrite add_assets_add.
Qed.

End Assets.

(** ** One plugin, and all of them *)

Section Gather.
Variable H : Host.
Variable W : World.

Lemma set_configData_same (st : locals) : set_configData st (configData st) = st.
Proof. now destruct st. Qed.

Lemma provider_step_eq (st : locals) (data : dict) :
  provider_step H W st data =
  (provider_events H W (configData st) data,
   inr (set_configData st (contribution H W (configData st) data))).
Proof.
  unfold provider_step, provider_events, contribution.
  destruct (truthy (get_default data "python_module" PNone)).
  - destruct (get_labextension_config_python W _) as [e|value].
    + now rewrite set_configData_same.
    + unfold try_except, bind, emit, lift. simpl.
      now destruct (py_update H (configData st) value) as [d [e|]].
  - unfold ret. now rewrite set_configData_same.
Qed.

Lemma plugin_step_trace (prefix : string) (st : locals)
    (item : string * dict) :
  written (trace (plugin_step H W prefix st item)) = [].
Proof.
  destruct item as [name data]. unfold plugin_step.
  rewrite trace_bind, for_each_silent by apply value_step_trace. simpl.
  destruct (outcome _) as [e|st1]; [reflexivity|].
  rewrite provider_step_eq. unfold provider_events. simpl.
  destruct (truthy _); [|reflexivity]. simpl.
  destruct (get_labextension_config_python W _) as [e|value];
    [reflexivity|].
  now destruct (snd (py_update H (configData st1) value)).
Qed.

Lemma plugin_step_ok (prefix : string) (st st' : locals)
    (item : string * dict) (t : list event) :
  plugin_step H W prefix st item = (t, inr st') ->
  t = provider_events H W (configData st) (snd item) /\
  st' = set_configData
          (add_assets st (plugin_entries_of item)
             (plugin_bundles H prefix item) (plugin_css H prefix item))
          (contribution H W (configData st) (snd item)).
Proof.
  destruct item as [name data]. unfold plugin_step. intros Hrun.
  bind_inv Hrun as st1 Hvalues Hprov.
  assert (Ht0 : t0 = []).
  { change t0 with (trace (t0, @inr exn locals st1)). rewrite <- Hvalues.
    apply for_each_silent. apply value_step_trace. }
  apply values_loop_ok in Hvalues.
  rewrite provider_step_eq in Hprov. injection Hprov as <- <-.
  subst. simpl. split; reflexivity.
Qed.

Lemma gather_written (labextensions : registry) (st : locals) :
  written (trace (gather H W labextensions st)) = [].
Proof.
  unfold gather.
  apply (for_each_trace (plugin_step H W _) (fun t => written t = [])).
  - reflexivity.
  - intros t1 t2 H1 H2. now rewrite written_app, H1, H2.
  - intros. apply plugin_step_trace.
Qed.

Lemma plugins_loop_ok (prefix : string) (items : list (string * dict)) :
  forall (st st' : locals) (t : list event),
    for_each (plugin_step H W prefix) items st = (t, inr st') ->
    t = merge_events H W items (configData st) /\
    st' = set_configData
            (add_assets st (flat_map plugin_entries_of items)
               (flat_map (plugin_bundles H prefix) items)
               (flat_map (plugin_css H prefix) items))
            (merge H W items (configData st)).
Proof.
  induction items as [|item items IH]; simpl; intros st st' t Hrun.
  - injection Hrun as <- <-. split; [reflexivity|].
    unfold merge. simpl. now rewrite add_assets_nil, set_configData_same.
  - bind_inv Hrun as st1 Hstep Hrest.
    apply plugin_step_ok in Hstep as [-> ->]. apply IH in Hrest as [-> ->].
    subst t. simpl. split; [reflexivity|].
    unfold set_configData, add_assets, merge. simpl.
    now rewrite !app_assoc.
Qed.

End Gather.

(** ** The request *)

Section Request.
Variable H : Host.
Variable W : World.

Lemma get_without_main (labextensions : registry) (data : dict) :
  get_labextension_manifest_data_by_folder W (BUILT_FILES H) = inr data ->
  contains data "main" = false ->
  get H W labextensions =
  ([LogError (Msg missing_build_msg); Write error_page], inr tt).
Proof.
  intros Hdata Hmain. unfold get. rewrite Hdata.
  unfold lift. rewrite bind_silent with (a := data) by reflexivity.
  rewrite Hmain. reflexivity.
Qed.

Lemma get_with_main (labextensions : registry) (data main_data : dict)
    (main : pyval) :
  get_labextension_manifest_data_by_folder W (BUILT_FILES H) = inr data ->
  lookup data "main" = Some (PDict main_data) ->
  lookup main_data "entry" = Some main ->
  get H W labextensions =
  finish H main (gather H W labextensions (start H W)).
Proof.
  intros Hdata Hmain Hentry. unfold get. rewrite Hdata.
  unfold lift. rewrite bind_silent with (a := data) by reflexivity.
  unfold contains. rewrite Hmain. simpl negb. cbv iota.
  unfold getitem at 1. rewrite Hmain, bind_ret_l.
  unfold subscript, getitem. rewrite Hentry, bind_ret_l.
  assert (Hcss :
    for_each (core_css_step H W (ujoin H (base_url H) PREFIX))
             ["main.css"] [] = ([], inr (core_css H W))).
  { simpl. unfold core_css_step, core_css, static_prefix_of.
    destruct (isfile W _); now rewrite bind_ret_l. }
  rewrite (bind_silent _ Hcss).
  change {| entries := [];
            bundles := map (fun name =>
                              ujoin H (ujoin H (base_url H) PREFIX)
                                    (name ++ ".bundle.js"))
                           ["loader"; "main"];
            css_files := core_css H W;
            configData := [("terminalsAvailable", terminals_available H)] |}
    with (start H W).
  unfold bind, finish.
  destruct (gather H W labextensions (start H W)) as [t [e|st]];
    reflexivity.
Qed.

(** [get], case by case. *)
Lemma get_cases (labextensions : registry) :
  get H W labextensions =
  match get_labextension_manifest_data_by_folder W (BUILT_FILES H) with
  | inl e => ([], inl e)
  | inr data =>
      match lookup data "main" with
      | None => ([LogError (Msg missing_build_msg); Write error_page], inr tt)
      | Some (PDict main_data) =>
          match lookup main_data "entry" with
          | Some main =>
              finish H main (gather H W labextensions (start H W))
          | None => ([], inl (KeyError (PStr "entry")))
          end
      | Some _ => ([], inl TypeError)
      end
  end.
Proof.
  destruct (get_labextension_manifest_data_by_folder W (BUILT_FILES H))
    as [e|data] eqn:Hdata.
  { unfold get. now rewrite Hdata. }
  destruct (lookup data "main") as [main_v|] eqn:Hmain.
  2:{ apply get_without_main with (data := data); [assumption|].
      unfold contains. now rewrite Hmain. }
  assert (Hbad : forall e,
             subscript main_v "entry" = ([], inl e) ->
             get H W labextensions = ([], inl e)).
  { intros e He. unfold get. rewrite Hdata. unfold lift.
    rewrite bind_silent with (a := data) by reflexivity.
    unfold contains. rewrite Hmain. simpl negb. cbv iota.
    unfold getitem at 1. rewrite Hmain, bind_ret_l.
    now rewrite (bind_fail _ He). }
  destruct main_v as [| | | | |main_data]; try (now apply Hbad).
  destruct (lookup main_data "entry") as [main|] eqn:Hentry.
  - now apply get_with_main with (data := data) (main_data := main_data).
  - apply Hbad. unfold subscript, getitem. now rewrite Hentry.
Qed.

(** A rendered lab page is the page of the plan. *)
Lemma renders_plan (labextensions : registry) (ctx : context) :
  renders H W labextensions ctx ->
  exists data main_data main,
    get_labextension_manifest_data_by_folder W (BUILT_FILES H) = inr data /\
    lookup data "main" = Some (PDict main_data) /\
    lookup main_data "entry" = Some main /\
    ctx = plan H W labextensions main /\
    get H W labextensions =
    (merge_events H W (sorted labextensions) (initial_payload H) ++
     [Write (LabHtml ctx)], inr tt).
Proof.
  unfold renders. intros Hw.
  destruct (get_labextension_manifest_data_by_folder W (BUILT_FILES H))
    as [e|data] eqn:Hdata.
  { unfold get in Hw. rewrite Hdata in Hw. discriminate. }
  destruct (contains data "main") eqn:Hmain.
  2:{ rewrite (get_without_main _ Hdata Hmain) in Hw. discriminate. }
  unfold contains in Hmain.
  destruct (lookup data "main") as [main_v|] eqn:Hl; [|discriminate].
  assert (Hshape : exists main_data main,
             main_v = PDict main_data /\ lookup main_data "entry" = Some main).
  { unfold get in Hw. rewrite Hdata in Hw. unfold lift in Hw.
    rewrite bind_silent with (a := data) in Hw by reflexivity.
    unfold contains in Hw. rewrite Hl in Hw. simpl negb in Hw.
    cbv iota in Hw. unfold getitem at 1 in Hw. rewrite Hl, bind_ret_l in Hw.
    destruct main_v as [| | | | |main_data]; try discriminate.
    unfold subscript, getitem in Hw.
    destruct (lookup main_data "entry") as [main|] eqn:He;
      [eauto|discriminate]. }
  destruct Hshape as (main_data & main & -> & Hentry).
  exists data, main_data, main. repeat split; auto.
  - rewrite (get_with_main _ Hdata Hl Hentry) in Hw. unfold finish in Hw.
    destruct (gather H W labextensions (start H W)) as [t [e|st]] eqn:Hg.
    + assert (Hsilent := gather_written H W labextensions (start H W)).
      rewrite Hg in Hsilent. simpl in Hw, Hsilent. congruence.
    + assert (Hsilent := gather_written H W labextensions (start H W)).
      rewrite Hg in Hsilent. simpl in Hw, Hsilent.
      rewrite written_app, Hsilent in Hw. simpl in Hw.
      injection Hw as <-.
      apply plugins_loop_ok in Hg as [_ ->]. reflexivity.
  - rewrite (get_with_main _ Hdata Hl Hentry) in Hw |- *.
    unfold finish in Hw |- *.
    destruct (gather H W labextensions (start H W)) as [t [e|st]] eqn:Hg.
    + assert (Hsilent := gather_written H W labextensions (start H W)).
      rewrite Hg in Hsilent. simpl in Hw, Hsilent. congruence.
    + assert (Hsilent := gather_written H W labextensions (start H W)).
      rewrite Hg in Hsilent. simpl in Hw, Hsilent.
      rewrite written_app, Hsilent in Hw. simpl in Hw.
      injection Hw as <-.
      apply plugins_loop_ok in Hg as [-> _]. reflexivity.
Qed.

End Request.

(** ** Loops that agree *)

Section LoopsAgree.
Context {A S : Type}.
Variables body1 body2 : S -> A -> M S.

Lemma for_each_ext_in (l : list A) :
  (forall x, In x l -> forall s, body1 s x = body2 s x) ->
  forall s, for_each body1 l s = for_each body2 l s.
Proof.
  induction l as [|x l IH]; intros Hagree s; simpl; [reflexivity|].
  rewrite (Hagree x (or_introl eq_refl) s).
  unfold bind. destruct (body2 s x) as [t [e|s1]]; [reflexivity|].
  rewrite IH; [reflexivity|]. intros y Hy. apply Hagree. now right.
Qed.

Lemma for_each_outcome_ext (l : list A) :
  (forall x s, outcome (body1 s x) = outcome (body2 s x)) ->
  forall s, outcome (for_each body1 l s) = outcome (for_each body2 l s).
Proof.
  intros Hagree. induction l as [|x l IH]; intros s; simpl; [reflexivity|].
  rewrite !outcome_bind, Hagree.
  destruct (outcome (body2 s x)); auto.
Qed.

End LoopsAgree.

(** ** Merging the payload *)

Section Merge.
Variable H : Host.
Variable W : World.

Lemma merge_app (l1 l2 : list (string * dict)) (payload : dict) :
  merge H W (l1 ++ l2) payload = merge H W l2 (merge H W l1 payload).
Proof. unfold merge. now rewrite map_app, fold_left_app. Qed.

Lemma merge_leaves_key (k : string) (items : list (string * dict)) :
  Forall (fun item => leaves_key H W k (snd item)) items ->
  forall payload, lookup (merge H W items payload) k = lookup payload k.
Proof.
  induction 1 as [|item items Hitem _ IH]; intros payload; [reflexivity|].
  unfold merge in *. simpl. rewrite IH. apply Hitem.
Qed.

Lemma contribution_mapping (payload data other : dict) :
  truthy (get_default data "python_module" PNone) = true ->
  get_labextension_config_python W (get_default data "python_module" PNone)
    = inr (PDict other) ->
  contribution H W payload data = update payload other.
Proof.
  intros Hm Hp. unfold contribution. now rewrite Hm, Hp.
Qed.

Lemma contribution_raises (payload data : dict) (e : exn) :
  get_labextension_config_python W (get_default data "python_module" PNone)
    = inl e ->
  contribution H W payload data = payload.
Proof.
  intros Hp. unfold contribution. rewrite Hp. now destruct (truthy _).
Qed.

Lemma contribution_quiet (payload data : dict) :
  contribution H (quiet W) payload data = contribution H W payload data.
Proof.
  unfold contribution, quiet. simpl.
  destruct (truthy _); [|reflexivity].
  now destruct (get_labextension_config_python W _).
Qed.

Lemma merge_events_logs (name : string) (data : dict) (e : exn)
    (items : list (string * dict)) :
  In (name, data) items ->
  truthy (get_default data "python_module" PNone) = true ->
  get_labextension_config_python W (get_default data "python_module" PNone)
    = inl e ->
  forall payload, In (LogError (Exc e)) (merge_events H W items payload).
Proof.
  intros Hin Hm Hp.
  induction items as [|item items IH]; intros payload; [destruct Hin|].
  simpl. apply in_or_app. destruct Hin as [->|Hin].
  - left. unfold provider_events. simpl. rewrite Hm, Hp. simpl. auto.
  - right. now apply IH.
Qed.

Lemma plugin_step_quiet (prefix : string) (item : string * dict)
    (st : locals) :
  outcome (plugin_step H W prefix st item) =
  outcome (plugin_step H (quiet W) prefix st item).
Proof.
  destruct item as [name data]. unfold plugin_step.
  rewrite !outcome_bind.
  destruct (outcome (for_each _ _ _)) as [e|st1]; [reflexivity|].
  rewrite !provider_step_eq. simpl. now rewrite contribution_quiet.
Qed.

Lemma gather_quiet (labextensions : registry) (st : locals) :
  outcome (gather H W labextensions st) =
  outcome (gather H (quiet W) labextensions st).
Proof.
  unfold gather. apply for_each_outcome_ext. intros. apply plugin_step_quiet.
Qed.

Lemma finish_outcome (main : pyval) (r1 r2 : M locals) :
  outcome r1 = outcome r2 -> written (trace r1) = [] ->
  written (trace r2) = [] ->
  outcome (finish H main r1) = outcome (finish H main r2) /\
  written (trace (finish H main r1)) = written (trace (finish H main r2)).
Proof.
  destruct r1 as [t1 [e1|st1]], r2 as [t2 [e2|st2]]; simpl;
    intros Ho H1 H2; try discriminate.
  - split; congruence.
  - injection Ho as <-. rewrite !written_app, H1, H2. split; reflexivity.
Qed.

End Merge.

(** ** Names after a plugin in [sorted] *)

Lemma sorted_after (labextensions : registry) (x : string * dict) :
  NoDup (keys labextensions) -> In x labextensions ->
  exists before after,
    sorted labextensions = before ++ x :: after /\
    Forall (fun y => In y labextensions /\ (fst x <? fst y)%string = true)
           after.
Proof.
  intros Hnd Hin.
  assert (Hin' : In x (sorted labextensions))
    by (eapply Permutation_in; [apply sorted_perm|exact Hin]).
  apply in_split in Hin' as (before & after & Hsplit).
  exists before, after. split; [exact Hsplit|].
  assert (Hs := sorted_sorted labextensions).
  assert (Hnd' : NoDup (keys (sorted labextensions))).
  { eapply Permutation_NoDup; [|exact Hnd].
    unfold keys. apply Permutation_map, sorted_perm. }
  assert (Hsub : forall y, In y after -> In y labextensions).
  { intros y Hy. eapply Permutation_in; [symmetry; apply sorted_perm|].
    rewrite Hsplit. apply in_or_app. right. now right. }
  rewrite Hsplit in Hs, Hnd'. clear Hsplit.
  induction before as [|b before IH]; simpl in *.
  - inversion Hs as [|? ? _ Hle]; subst.
    inversion Hnd' as [|? ? Hnotin _]; subst.
    rewrite Forall_forall in *. intros y Hy. split; [auto|].
    specialize (Hle y Hy). unfold name_le in Hle.
    apply leb_ltb_or_eq in Hle as [Hlt|Heq]; [exact Hlt|].
    exfalso. apply Hnotin. rewrite Heq. unfold keys. now apply in_map.
  - inversion Hs; inversion Hnd'; subst. auto.
Qed.

(** ** Manifests of the documented shape *)

Section WellFormed.
Variable H : Host.
Variables prefix name : string.

Lemma css_loop_total (fnames : list pyval) :
  forallb is_str fnames = true ->
  forall st, exists st',
    for_each (css_step H prefix name) fnames st = ([], inr st').
Proof.
  induction fnames as [|f fnames IH]; simpl; intros Hstr st.
  - now exists st.
  - apply andb_prop in Hstr as [Hf Hstr].
    destruct f; try discriminate. simpl.
    destruct (snd (splitext H s) =? ".css"); rewrite bind_ret_l; auto.
Qed.

Lemma value_step_total (value : pyval) :
  well_formed_value value = true ->
  forall st, exists st',
    value_step H prefix name st value = ([], inr st').
Proof.
  unfold well_formed_value. intros Hwf st.
  destruct value as [| | | | |v]; try (now exists st).
  destruct (lookup v "files") as [files|] eqn:Hfiles; [|discriminate].
  destruct files as [| | | |fnames|]; try discriminate.
  apply andb_prop in Hwf as [Hstr Hfirst].
  unfold value_step. unfold has_entry in Hfirst.
  destruct (truthy (get_default v "entry" PNone)) eqn:Hentry.
  - simpl in Hfirst. destruct fnames as [|f0 fnames]; [discriminate|].
    unfold get_default in Hentry.
    destruct (lookup v "entry") as [e|] eqn:He; [|discriminate].
    unfold getitem. rewrite He, Hfiles, !bind_ret_l. simpl.
    rewrite bind_lift_ok, !bind_ret_l. simpl. rewrite bind_lift_ok.
    apply css_loop_total. exact Hstr.
  - unfold getitem. rewrite Hfiles, !bind_ret_l. simpl.
    rewrite bind_lift_ok. now apply css_loop_total.
Qed.

Lemma values_loop_total (vs : list pyval) :
  forallb well_formed_value vs = true ->
  forall st, exists st',
    for_each (value_step H prefix name) vs st = ([], inr st').
Proof.
  induction vs as [|v vs IH]; simpl; intros Hwf st.
  - now exists st.
  - apply andb_prop in Hwf as [Hv Hwf].
    destruct (value_step_total v Hv st) as [st1 Hstep].
    rewrite (bind_silent _ Hstep). auto.
Qed.

(** A run that did not raise found a first file wherever it needed one. *)
Lemma value_step_first_file (st st' : locals) (v : dict) (t : list event) :
  value_step H prefix name st (PDict v) = (t, inr st') ->
  has_entry v = true -> exists f, first_file v = Some f.
Proof.
  unfold value_step, has_entry. intros Hrun Hentry. rewrite Hentry in Hrun.
  bind_inv Hrun as st1 Hbundle Hcss.
  bind_inv Hbundle as e He Hbundle.
  bind_inv Hbundle as files Hget Hbundle.
  apply getitem_ok in Hget as [_ Hfiles].
  bind_inv Hbundle as f0 Hfirst Hbundle.
  unfold lift in Hfirst. injection Hfirst as _ Hfirst.
  exists f0. unfold first_file. now rewrite Hfiles, Hfirst.
Qed.

Lemma values_loop_first_file (vs : list pyval) :
  forall (st st' : locals) (t : list event) (v : dict),
    for_each (value_step H prefix name) vs st = (t, inr st') ->
    In (PDict v) vs -> has_entry v = true ->
    exists f, first_file v = Some f.
Proof.
  induction vs as [|v0 vs IH]; simpl; intros st st' t v Hrun Hin Hentry;
    [destruct Hin|].
  bind_inv Hrun as st1 Hstep Hrest. destruct Hin as [->|Hin].
  - eapply value_step_first_file; eauto.
  - eapply IH; eauto.
Qed.

End WellFormed.

Section GatherTotal.
Variable H : Host.
Variable W : World.

Lemma plugins_loop_total (prefix : string) (items : list (string * dict)) :
  Forall (fun item => forallb well_formed_value (values (snd item)) = true)
         items ->
  forall st, exists t st',
    for_each (plugin_step H W prefix) items st = (t, inr st').
Proof.
  induction 1 as [|[name data] items Hitem _ IH]; intros st; simpl.
  - now exists [], st.
  - destruct (values_loop_total H prefix name _ Hitem st) as [st1 Hvalues].
    simpl in Hvalues. rewrite (bind_silent _ Hvalues), provider_step_eq.
    destruct (IH (set_configData st1
                    (contribution H W (configData st1) data)))
      as (t & st' & Hrest).
    unfold bind. rewrite Hrest. eauto.
Qed.

Lemma plugins_loop_first_file (prefix : string)
    (items : list (string * dict)) :
  forall (st st' : locals) (t : list event) (name : string) (data v : dict),
    for_each (plugin_step H W prefix) items st = (t, inr st') ->
    In (name, data) items -> In (PDict v) (values data) ->
    has_entry v = true -> exists f, first_file v = Some f.
Proof.
  induction items as [|[name0 data0] items IH]; simpl;
    intros st st' t name data v Hrun Hin Hv Hentry; [destruct Hin|].
  bind_inv Hrun as st1 Hstep Hrest. destruct Hin as [[= -> ->]|Hin].
  - bind_inv Hstep as st2 Hvalues Hprov.
    eapply values_loop_first_file; eauto.
  - eapply IH; eauto.
Qed.

Lemma well_formed_sorted (labextensions : registry) :
  well_formed_registry labextensions = true ->
  Forall (fun item => forallb well_formed_value (values (snd item)) = true)
         (sorted labextensions).
Proof.
  unfold well_formed_registry. rewrite forallb_forall. intros Hwf.
  apply Forall_forall. intros item Hin. apply Hwf.
  eapply Permutation_in; [symmetry; apply sorted_perm|exact Hin].
Qed.

End GatherTotal.

(** ** Registration *)

Section Registration.
Variable W : World.

Lemma register_step_trace (out : registry) (item : string * dict) :
  trace (register_step W out item) = [].
Proof.
  destruct item as [name ext_config]. unfold register_step.
  rewrite trace_bind, getitem_trace. simpl.
  destruct (outcome (getitem ext_config "enabled")) as [|enabled];
    [reflexivity|].
  destruct (truthy enabled); [|reflexivity]. simpl.
  rewrite trace_bind. simpl.
  destruct (find_labextension W name) as [|[folder|]]; try reflexivity.
  rewrite trace_bind. simpl.
  destruct (validate_labextension_folder W name folder) as [|[|w ws]];
    try reflexivity.
  rewrite trace_bind. simpl.
  now destruct (get_labextension_manifest_data_by_name W name) as [|[data|]].
Qed.

(** What one round of the registration loop does to the registry. *)
Lemma register_step_ok (out out' : registry) (name : string)
    (ext_config : dict) (t : list event) :
  register_step W out (name, ext_config) = (t, inr out') ->
  (fails W name ext_config /\ out' = out) \/
  (exists data,
      passes W name ext_config data /\
      out' = setitem out name
               (setitem data "python_module"
                  (get_default ext_config "python_module" PNone))).
Proof.
  unfold register_step, fails, passes, enabled, disabled, located,
    validated, has_manifest.
  intros Hrun. bind_inv Hrun as en Hen Hrun.
  apply getitem_ok in Hen as [_ Hen].
  destruct (truthy en) eqn:Htruthy; simpl in Hrun.
  2:{ injection Hrun as _ <-. left. split; [|reflexivity]. left. eauto. }
  bind_inv Hrun as folder Hfind Hrun.
  unfold lift in Hfind. injection Hfind as _ Hfind.
  destruct folder as [folder|].
  2:{ injection Hrun as _ <-. left. split; [|reflexivity].
      right. left. eauto. }
  bind_inv Hrun as warnings Hval Hrun.
  unfold lift in Hval. injection Hval as _ Hval.
  destruct warnings as [|w ws].
  2:{ injection Hrun as _ <-. left. split; [|reflexivity].
      right. right. left. eauto 8. }
  bind_inv Hrun as data Hdata Hrun.
  unfold lift in Hdata. injection Hdata as _ Hdata.
  destruct data as [data|].
  2:{ injection Hrun as _ <-. left. split; [|reflexivity].
      right. right. right. eauto 8. }
  injection Hrun as _ <-. right. exists data. eauto 10.
Qed.

(** A plugin that fails a step leaves the registry as it was. *)
Lemma register_step_fails (out : registry) (name : string)
    (ext_config : dict) :
  fails W name ext_config ->
  register_step W out (name, ext_config) = ret out.
Proof.
  unfold register_step, fails, enabled, disabled, located, validated.
  intros [(v & Hv & Hf)
         |[((v & Hv & Ht) & Hfind)
          |[((v & Hv & Ht) & folder & w & ws & Hfind & Hval)
           |((v & Hv & Ht) & folder & Hfind & Hval & Hdata)]]];
    unfold getitem; rewrite Hv, bind_ret_l.
  - now rewrite Hf.
  - rewrite Ht. simpl. now rewrite Hfind, bind_lift_ok.
  - rewrite Ht. simpl. rewrite Hfind, bind_lift_ok.
    now rewrite Hval, bind_lift_ok.
  - rewrite Ht. simpl. rewrite Hfind, bind_lift_ok.
    rewrite Hval, bind_lift_ok. now rewrite Hdata, bind_lift_ok.
Qed.

Lemma load_trace (labextensions : list (string * dict)) (out : registry) :
  trace (for_each (register_step W) labextensions out) = [].
Proof. apply for_each_silent. apply register_step_trace. Qed.

(** Every plugin of the registry passed every step. *)
Lemma load_passes (labextensions : list (string * dict)) :
  forall (out out' : registry) (t : list event),
    for_each (register_step W) labextensions out = (t, inr out') ->
    forall name data,
      In (name, data) out' ->
      In (name, data) out \/
      exists ext_config manifest,
        In (name, ext_config) labextensions /\
        passes W name ext_config manifest /\
        data = setitem manifest "python_module"
                 (get_default ext_config "python_module" PNone).
Proof.
  induction labextensions as [|[n c] l IH]; simpl;
    intros out out' t Hrun name data Hin.
  - injection Hrun as _ <-. now left.
  - bind_inv Hrun as out1 Hstep Hrest.
    destruct (IH _ _ _ Hrest _ _ Hin) as [Hin1|(c' & m & Hc & Hp & Hd)].
    + apply register_step_ok in Hstep
        as [[_ ->]|(m & Hp & ->)]; [now left|].
      apply In_setitem in Hin1 as [[-> ->]|Hin1]; [|now left].
      right. exists c, m. auto.
    + right. exists c', m. auto.
Qed.

Lemma load_NoDup (labextensions : list (string * dict)) :
  forall (out out' : registry) (t : list event),
    for_each (register_step W) labextensions out = (t, inr out') ->
    NoDup (keys out) -> NoDup (keys out').
Proof.
  induction labextensions as [|[n c] l IH]; simpl;
    intros out out' t Hrun Hnd.
  - now injection Hrun as _ <-.
  - bind_inv Hrun as out1 Hstep Hrest.
    apply (IH _ _ _ Hrest).
    apply register_step_ok in Hstep as [[_ ->]|(m & _ & ->)]; [exact Hnd|].
    now apply setitem_NoDup.
Qed.

End Registration.

(** * The properties of the specification *)

Lemma sorted_strict (labextensions : registry) :
  NoDup (keys labextensions) ->
  StronglySorted (fun a b => (fst a <? fst b)%string = true)
                 (sorted labextensions).
Proof.
  intros Hnd.
  assert (Hnd' : NoDup (keys (sorted labextensions))).
  { eapply Permutation_NoDup; [|exact Hnd].
    unfold keys. apply Permutation_map, sorted_perm. }
  assert (Hs := sorted_sorted labextensions).
  induction Hs as [|x l Hs IH Hx]; [constructor|].
  simpl in Hnd'. inversion Hnd' as [|? ? Hnotin Hnd'']; subst.
  constructor; [auto|].
  rewrite Forall_forall in *. intros y Hy.
  specialize (Hx y Hy). unfold name_le in Hx.
  apply leb_ltb_or_eq in Hx as [Hlt|Heq]; [exact Hlt|].
  exfalso. apply Hnotin. rewrite Heq. unfold keys. now apply in_map.
Qed.

Lemma keys_unique (V : Type) (d : list (string * V)) (k : string) (v v' : V) :
  NoDup (keys d) -> In (k, v) d -> In (k, v') d -> v = v'.
Proof.
  intros Hnd Hv Hv'.
  apply (In_lookup _ _ _ Hnd) in Hv. apply (In_lookup _ _ _ Hnd) in Hv'.
  congruence.
Qed.

Section LastWriter.
Variable H : Host.
Variable W : World.

Lemma silent_leaves_key (k : string) (data : dict) :
  silent_on W k data -> leaves_key H W k data.
Proof.
  unfold silent_on, leaves_key, contribution.
  intros [Hfalse|[(e & He)|(d & Hd & Hk)]] payload.
  - now rewrite Hfalse.
  - rewrite He. now destruct (truthy _).
  - rewrite Hd. destruct (truthy _); [|reflexivity]. simpl.
    now apply lookup_update_old.
Qed.

(** The value of a key after the merge is that of the last plugin, in name
    order, whose mapping has the key. *)
Lemma merge_last_writer (labextensions : registry) (payload : dict)
    (nameB : string) (dataB other : dict) (k : string) (v : pyval) :
  NoDup (keys labextensions) ->
  In (nameB, dataB) labextensions ->
  truthy (get_default dataB "python_module" PNone) = true ->
  get_labextension_config_python W (get_default dataB "python_module" PNone)
    = inr (PDict other) ->
  NoDup (keys other) -> lookup other k = Some v ->
  (forall nameC dataC,
      In (nameC, dataC) labextensions -> (nameB <? nameC)%string = true ->
      leaves_key H W k dataC) ->
  lookup (merge H W (sorted labextensions) payload) k = Some v.
Proof.
  intros Hnd Hin Hm Hp Hother Hk Hlater.
  destruct (@sorted_after labextensions (nameB, dataB) Hnd Hin)
    as (before & after & -> & Hafter).
  rewrite merge_app.
  change (merge H W ((nameB, dataB) :: after) ?p)
    with (merge H W after (contribution H W p dataB)).
  rewrite merge_leaves_key.
  - rewrite (contribution_mapping H W _ _ Hm Hp).
    now apply lookup_update_new.
  - eapply Forall_impl; [|exact Hafter].
    intros [nameC dataC] [HinC Hlt]. simpl in *. eauto.
Qed.

(** A key no plugin writes keeps the value it had. *)
Lemma merge_untouched (labextensions : registry) (payload : dict)
    (k : string) :
  (forall name data, In (name, data) labextensions -> leaves_key H W k data) ->
  lookup (merge H W (sorted labextensions) payload) k = lookup payload k.
Proof.
  intros Hall. apply merge_leaves_key. apply Forall_forall.
  intros [name data] Hin. simpl. apply (Hall name).
  eapply Permutation_in; [symmetry; apply sorted_perm|exact Hin].
Qed.

End LastWriter.

(** C1: the config payload is built by going through the plugins in
    ascending order of their names and merging the mapping of each
    provider key by key.  The value of a key is that of the plugin with
    the greatest name whose mapping has the key, so of two colliding
    plugins the one with the greater name wins; a key that no mapping has
    keeps the value it had at the start: merging a mapping never drops
    what the mappings before it wrote under other keys. *)
Theorem config_last_writer_wins (H : Host) (W : World)
    (labextensions : registry) (ctx : context) :
  renders H W labextensions ctx ->
  NoDup (keys labextensions) ->
  ctx_jupyterlab_config ctx =
    merge H W (sorted labextensions) (initial_payload H) /\
  Permutation labextensions (sorted labextensions) /\
  StronglySorted (fun a b => (fst a <? fst b)%string = true)
                 (sorted labextensions) /\
  (forall nameB dataB other k v,
      In (nameB, dataB) labextensions ->
      truthy (get_default dataB "python_module" PNone) = true ->
      get_labextension_config_python W
        (get_default dataB "python_module" PNone) = inr (PDict other) ->
      NoDup (keys other) -> lookup other k = Some v ->
      (forall nameC dataC,
          In (nameC, dataC) labextensions -> (nameB <? nameC)%string = true ->
          silent_on W k dataC) ->
      lookup (ctx_jupyterlab_config ctx) k = Some v) /\
  (forall k,
      (forall name data, In (name, data) labextensions -> silent_on W k data) ->
      lookup (ctx_jupyterlab_config ctx) k
      = lookup [("terminalsAvailable", terminals_available H)] k).
Proof.
  intros Hr Hnd.
  destruct (renders_plan Hr) as (data & main_data & main & _ & _ & _ & -> & _).
  split; [reflexivity|]. split; [apply sorted_perm|].
  split; [now apply sorted_strict|]. split.
  - intros nameB dataB other k v Hin Hm Hp Hother Hk Hlater. simpl.
    apply merge_last_writer
      with (nameB := nameB) (dataB := dataB) (other := other); auto.
    intros nameC dataC HinC Hlt. apply silent_leaves_key. eauto.
  - intros k Hsilent. simpl.
    apply merge_untouched. intros name d Hin.
    apply silent_leaves_key. eauto.
Qed.

(** C2: a provider that raises does not stop the request.  The handler
    ends and writes as it would had the provider returned an empty
    mapping, and the exception is logged.  The payload is that of the
    other plugins: a key holds the value of the last of them, in name
    order, whose mapping has it, be that plugin before or after the
    failing one, and a key none of them writes holds what it held at the
    start. *)
Theorem provider_failure_is_isolated (H : Host) (W : World)
    (labextensions : registry) :
  outcome (get H W labextensions) = outcome (get H (quiet W) labextensions) /\
  written (trace (get H W labextensions)) =
    written (trace (get H (quiet W) labextensions)) /\
  forall ctx name data e,
    renders H W labextensions ctx ->
    NoDup (keys labextensions) ->
    In (name, data) labextensions ->
    truthy (get_default data "python_module" PNone) = true ->
    get_labextension_config_python W (get_default data "python_module" PNone)
      = inl e ->
    In (LogError (Exc e)) (trace (get H W labextensions)) /\
    (forall nameB dataB other k v,
        In (nameB, dataB) labextensions ->
        truthy (get_default dataB "python_module" PNone) = true ->
        get_labextension_config_python W
          (get_default dataB "python_module" PNone) = inr (PDict other) ->
        NoDup (keys other) -> lookup other k = Some v ->
        (forall nameC dataC,
            In (nameC, dataC) labextensions ->
            (nameB <? nameC)%string = true -> nameC <> name ->
            silent_on W k dataC) ->
        lookup (ctx_jupyterlab_config ctx) k = Some v) /\
    (forall k,
        (forall nameC dataC,
            In (nameC, dataC) labextensions -> nameC <> name ->
            silent_on W k dataC) ->
        lookup (ctx_jupyterlab_config ctx) k
        = lookup [("terminalsAvailable", terminals_available H)] k).
Proof.
  assert (Hboth :
    outcome (get H W labextensions) = outcome (get H (quiet W) labextensions) /\
    written (trace (get H W labextensions)) =
      written (trace (get H (quiet W) labextensions))).
  { rewrite !get_cases. simpl.
    destruct (get_labextension_manifest_data_by_folder W (BUILT_FILES H))
      as [e|data]; [auto|].
    destruct (lookup data "main") as [[| | | | |main_data]|]; auto.
    destruct (lookup main_data "entry") as [main|]; auto.
    apply finish_outcome.
    - apply gather_quiet.
    - apply gather_written.
    - apply gather_written. }
  destruct Hboth as [Ho Hw]. split; [exact Ho|]. split; [exact Hw|].
  intros ctx name data e Hr Hnd Hin Hm Hp.
  destruct (renders_plan Hr)
    as (bd & main_data & main & _ & _ & _ & -> & Hget).
  assert (Hothers : forall k nameC dataC,
             In (nameC, dataC) labextensions ->
             (nameC <> name -> silent_on W k dataC) ->
             leaves_key H W k dataC).
  { intros k nameC dataC HinC Hsilent.
    destruct (string_dec nameC name) as [->|Hne].
    - assert (dataC = data) by (eapply keys_unique; eauto). subst dataC.
      apply silent_leaves_key. right. left. eauto.
    - apply silent_leaves_key. auto. }
  split; [|split].
  - rewrite Hget. simpl. apply in_or_app. left.
    apply merge_events_logs with (name := name) (data := data); auto.
    eapply Permutation_in; [apply sorted_perm|exact Hin].
  - intros nameB dataB other k v HinB HmB HpB Hother Hk Hlater. simpl.
    apply merge_last_writer
      with (nameB := nameB) (dataB := dataB) (other := other); auto.
    intros nameC dataC HinC Hlt.
    apply (Hothers k nameC dataC HinC). intros Hne. eauto.
  - intros k Hsilent. simpl.
    apply merge_untouched. intros nameC dataC HinC.
    apply (Hothers k nameC dataC HinC). intros Hne. eauto.
Qed.

(** C3: when the build manifest has no "main", the handler logs the error,
    writes the error page and returns; it writes nothing else, calls no
    provider, and does so whatever the registry holds. *)
Theorem missing_main_gives_error_page (H : Host) (W : World)
    (labextensions : registry) (data : dict) :
  get_labextension_manifest_data_by_folder W (BUILT_FILES H) = inr data ->
  contains data "main" = false ->
  outcome (get H W labextensions) = inr tt /\
  written (trace (get H W labextensions)) = [error_page] /\
  errors (trace (get H W labextensions)) = [Msg missing_build_msg] /\
  invoked (trace (get H W labextensions)) = [] /\
  get H W labextensions = get H W [] /\
  forall ctx, ~ renders H W labextensions ctx.
Proof.
  intros Hdata Hmain.
  rewrite (get_without_main H W labextensions Hdata Hmain).
  rewrite (get_without_main H W [] Hdata Hmain).
  repeat split; try reflexivity.
  intros ctx. unfold renders.
  rewrite (get_without_main H W labextensions Hdata Hmain).
  discriminate.
Qed.

Lemma passes_not_fails (W : World) (name : string) (ext_config data : dict) :
  passes W name ext_config data -> ~ fails W name ext_config.
Proof.
  unfold passes, fails, enabled, disabled, located, validated, has_manifest.
  intros ((v & Hv & Ht) & folder & Hfind & Hval & Hdata).
  intros [(v' & Hv' & Hf)
         |[(_ & Hnone)
          |[(_ & folder' & w & ws & Hfind' & Hval')
           |(_ & folder' & Hfind' & _ & Hnone)]]]; try congruence.
Qed.

Lemma load_skips (W : World) (before after : list (string * dict))
    (name : string) (ext_config : dict) (out : registry) :
  fails W name ext_config ->
  for_each (register_step W) (before ++ (name, ext_config) :: after) out =
  for_each (register_step W) (before ++ after) out.
Proof.
  intros Hfails. rewrite !for_each_app.
  apply bind_ext. intros out1. cbn [for_each].
  now rewrite (@register_step_fails W out1 name ext_config Hfails), bind_ret_l.
Qed.

(** C4: a configured plugin is in the registry only if it is enabled, was
    found, has a folder without warnings and has manifest data; a plugin
    that fails one of these steps is not in the registry, which is the
    registry of a configuration without that plugin: the handler, which
    reads the registry alone, takes nothing from it. *)
Theorem registration_gate (W : World) (labextensions : list (string * dict))
    (out : registry) (t : list event) :
  load_labextensions W labextensions = (t, inr out) ->
  NoDup (keys labextensions) ->
  (forall name data,
      In (name, data) out ->
      exists ext_config manifest,
        In (name, ext_config) labextensions /\
        passes W name ext_config manifest /\
        data = setitem manifest "python_module"
                 (get_default ext_config "python_module" PNone)) /\
  (forall name ext_config,
      In (name, ext_config) labextensions -> fails W name ext_config ->
      ~ In name (keys out) /\
      (forall H, ~ In name (keys (sorted out)) /\
                 forall st, gather H W out st =
                            for_each (plugin_step H W (extension_prefix H))
                              (filter (fun item => negb (fst item =? name))
                                      (sorted out)) st) /\
      forall before after,
        labextensions = before ++ (name, ext_config) :: after ->
        load_labextensions W (before ++ after) = (t, inr out)).
Proof.
  unfold load_labextensions. intros Hload Hnd.
  assert (Hpass : forall name data,
    In (name, data) out ->
    exists ext_config manifest,
      In (name, ext_config) labextensions /\
      passes W name ext_config manifest /\
      data = setitem manifest "python_module"
               (get_default ext_config "python_module" PNone)).
  { intros name data Hin.
    destruct (load_passes W _ _ Hload _ _ Hin) as [[]|Hex]. exact Hex. }
  split; [exact Hpass|].
  intros name ext_config Hin Hfails.
  assert (Hout : ~ In name (keys out)).
  { intros Hk. unfold keys in Hk. apply in_map_iff in Hk as ([n d] & Hn & Hk).
    simpl in Hn. subst n.
    destruct (Hpass _ _ Hk) as (c & m & Hc & Hp & _).
    assert (c = ext_config) by (eapply keys_unique; eauto). subst c.
    now apply (passes_not_fails Hp). }
  split; [exact Hout|]. split.
  - intros H.
    assert (Hsorted : ~ In name (keys (sorted out))).
    { intros Hk. apply Hout. unfold keys in *.
      eapply Permutation_in; [|exact Hk].
      apply Permutation_map. symmetry. apply sorted_perm. }
    split; [exact Hsorted|]. intros st. unfold gather. f_equal.
    clear - Hsorted. induction (sorted out) as [|[n d] l IH]; [reflexivity|].
    simpl in *. destruct (n =? name) eqn:E.
    + apply String.eqb_eq in E. tauto.
    + simpl. f_equal. tauto.
  - intros before after ->. rewrite <- Hload. symmetry. now apply load_skips.
Qed.

(** C5 (as amended): for a registry whose manifest values have the
    documented shape, a "files" list of strings that is not empty when the
    entry has an "entry" field, gathering the plugins does not raise, and
    with a build that has a "main" with an "entry" the handler returns and
    writes the lab page of the plan. *)
Theorem well_formed_plan_never_raises (H : Host) (W : World)
    (labextensions : registry) :
  well_formed_registry labextensions = true ->
  (forall st, exists t st', gather H W labextensions st = (t, inr st')) /\
  forall data main_data main,
    get_labextension_manifest_data_by_folder W (BUILT_FILES H) = inr data ->
    lookup data "main" = Some (PDict main_data) ->
    lookup main_data "entry" = Some main ->
    outcome (get H W labextensions) = inr tt /\
    renders H W labextensions (plan H W labextensions main).
Proof.
  intros Hwf.
  assert (Htotal : forall st, exists t st',
             gather H W labextensions st = (t, inr st')).
  { intros st. unfold gather. apply plugins_loop_total.
    now apply well_formed_sorted. }
  split; [exact Htotal|].
  intros data main_data main Hdata Hmain Hentry.
  unfold renders. rewrite (get_with_main H W labextensions Hdata Hmain Hentry).
  destruct (Htotal (start H W)) as (t & st' & Hg).
  assert (Hsilent := gather_written H W labextensions (start H W)).
  rewrite Hg in *. simpl in Hsilent. simpl.
  split; [reflexivity|].
  rewrite written_app, Hsilent. simpl.
  unfold gather in Hg. apply plugins_loop_ok in Hg as [_ ->]. reflexivity.
Qed.

Section CssFacts.
Variable H : Host.
Variable prefix : string.

Lemma css_urls_app (name : string) (l1 l2 : list pyval) :
  css_urls H prefix name (l1 ++ l2) =
  css_urls H prefix name l1 ++ css_urls H prefix name l2.
Proof. unfold css_urls. apply flat_map_app. Qed.

Lemma css_urls_length (name : string) (l : list pyval) :
  List.length (css_urls H prefix name l) =
  List.length
    (filter (fun fname =>
               match fname with PStr f => is_css H f | _ => false end) l).
Proof.
  induction l as [|f l IH]; simpl; [reflexivity|].
  rewrite length_app, IH.
  destruct f; simpl; try reflexivity.
  now destruct (is_css H s).
Qed.

Lemma plugin_css_listed (item : string * dict) :
  plugin_css H prefix item =
  css_urls H prefix (fst item) (listed_files item).
Proof.
  unfold plugin_css, listed_files.
  induction (values (snd item)) as [|v vs IH]; simpl; [reflexivity|].
  rewrite css_urls_app, IH. now destruct v.
Qed.

Lemma plugins_css_length (items : list (string * dict)) :
  List.length (flat_map (plugin_css H prefix) items) =
  list_sum (map (css_listed H) items).
Proof.
  induction items as [|item items IH]; simpl; [reflexivity|].
  rewrite length_app, IH, plugin_css_listed, css_urls_length.
  reflexivity.
Qed.

Lemma In_plugin_css (item : string * dict) (v : dict) (fname : string) :
  In (PDict v) (values (snd item)) ->
  In (PStr fname) (declared_files v) ->
  is_css H fname = true ->
  In (extension_url H prefix (fst item) (PStr fname))
     (plugin_css H prefix item).
Proof.
  intros Hv Hf Hcss. unfold plugin_css. apply in_flat_map.
  exists (PDict v). split; [exact Hv|]. simpl.
  unfold css_urls. apply in_flat_map.
  exists (PStr fname). split; [exact Hf|]. rewrite Hcss. now left.
Qed.

End CssFacts.

(** C6 (as amended): the CSS list is not deduplicated.  It is the core
    CSS URL, when there is one, followed by one URL for each time a
    manifest lists a file with the extension [.css], plugin after plugin
    in name order: a file listed twice is in the list twice. *)
Theorem css_urls_one_per_listing (H : Host) (W : World)
    (labextensions : registry) (ctx : context) :
  renders H W labextensions ctx ->
  ctx_jupyterlab_css ctx =
    core_css H W ++
    flat_map (fun item =>
                css_urls H (extension_prefix H) (fst item)
                         (listed_files item))
             (sorted labextensions) /\
  List.length (ctx_jupyterlab_css ctx) =
    List.length (core_css H W) +
    list_sum (map (css_listed H) (sorted labextensions)).
Proof.
  intros Hr.
  destruct (renders_plan Hr) as (data & main_data & main & _ & _ & _ & -> & _).
  simpl. split.
  - f_equal. induction (sorted labextensions) as [|item items IH]; simpl;
      [reflexivity|].
    now rewrite plugin_css_listed, IH.
  - now rewrite length_app, plugins_css_length.
Qed.

(** C7: the bundle list of a rendered page is the loader bundle, then the
    main bundle, then, plugin after plugin in name order and entry after
    entry, one URL extension prefix / plugin name / first declared file
    for each manifest entry with an "entry" field; every such entry has
    its URL in the list and nothing is removed from it. *)
Theorem bundle_urls_in_order (H : Host) (W : World)
    (labextensions : registry) (ctx : context) :
  renders H W labextensions ctx ->
  ctx_jupyterlab_bundles ctx =
    [ujoin H (ujoin H (base_url H) PREFIX) "loader.bundle.js";
     ujoin H (ujoin H (base_url H) PREFIX) "main.bundle.js"] ++
    flat_map (plugin_bundles H (ujoin H (base_url H) EXTENSION_PREFIX))
             (sorted labextensions) /\
  forall name data v,
    In (name, data) labextensions -> In (PDict v) (values data) ->
    has_entry v = true ->
    exists f,
      first_file v = Some f /\
      value_bundles H (ujoin H (base_url H) EXTENSION_PREFIX) name (PDict v) =
        [ujoin H (base_url H) EXTENSION_PREFIX ++ "/" ++ name ++ "/"
           ++ py_str H f]%string /\
      In (extension_url H (ujoin H (base_url H) EXTENSION_PREFIX) name f)
         (ctx_jupyterlab_bundles ctx).
Proof.
  intros Hr.
  destruct (renders_plan Hr)
    as (bd & main_data & main & Hdata & Hmain & Hentry & -> & Hget).
  split; [reflexivity|].
  intros name data v Hin Hv Hhas.
  assert (Hin' : In (name, data) (sorted labextensions))
    by (eapply Permutation_in; [apply sorted_perm|exact Hin]).
  assert (Hfirst : exists f, first_file v = Some f).
  { rewrite (get_with_main H W labextensions Hdata Hmain Hentry) in Hget.
    unfold finish in Hget.
    destruct (gather H W labextensions (start H W)) as [t [e|st]] eqn:Hg;
      [discriminate|].
    unfold gather in Hg.
    eapply plugins_loop_first_file; eauto. }
  destruct Hfirst as [f Hf]. exists f. split; [exact Hf|].
  assert (Hurl :
    value_bundles H (ujoin H (base_url H) EXTENSION_PREFIX) name (PDict v) =
    [extension_url H (ujoin H (base_url H) EXTENSION_PREFIX) name f]).
  { simpl. now rewrite Hhas, Hf. }
  split; [exact Hurl|].
  simpl. right. right. apply in_flat_map.
  exists (name, data). split; [exact Hin'|].
  unfold plugin_bundles. apply in_flat_map.
  exists (PDict v). split; [exact Hv|].
  cbn [fst]. unfold extension_prefix. rewrite Hurl. now left.
Qed.

(** C8: the core CSS URL is in the CSS list exactly when [main.css] is a
    file of the build folder; the URLs of the plugins come from the
    manifests alone, whatever the file system holds: every declared file
    with the extension [.css] has its URL in the list. *)
Theorem css_core_gated_plugins_trusted (H : Host) (W : World)
    (labextensions : registry) (ctx : context) :
  renders H W labextensions ctx ->
  ctx_jupyterlab_css ctx =
    (if isfile W (path_join H (BUILT_FILES H) "main.css")
     then [ujoin H (ujoin H (base_url H) PREFIX) "main.css"] else []) ++
    flat_map (plugin_css H (ujoin H (base_url H) EXTENSION_PREFIX))
             (sorted labextensions) /\
  forall name data v fname,
    In (name, data) labextensions -> In (PDict v) (values data) ->
    In (PStr fname) (declared_files v) ->
    snd (splitext H fname) = ".css" ->
    In (ujoin H (base_url H) EXTENSION_PREFIX ++ "/" ++ name ++ "/" ++ fname)%string
       (ctx_jupyterlab_css ctx).
Proof.
  intros Hr.
  destruct (renders_plan Hr) as (bd & main_data & main & _ & _ & _ & -> & _).
  split; [reflexivity|].
  intros name data v fname Hin Hv Hf Hext.
  simpl. apply in_or_app. right. apply in_flat_map.
  exists (name, data). split.
  - eapply Permutation_in; [apply sorted_perm|exact Hin].
  - apply (In_plugin_css H (extension_prefix H) (name, data) v fname);
      auto.
    unfold is_css. rewrite Hext. apply String.eqb_refl.
Qed.

(** C9: the handler's result, the page with its URL lists and payload and
    all it logs, is a function of the contents of the registry, of the
    build manifest, of the presence of [main.css] and of what the
    providers of the registered plugins return: two requests that agree on
    these end alike, in whatever order the registries were filled. *)
Theorem plan_is_deterministic (H : Host) (W1 W2 : World)
    (registry1 registry2 : registry) :
  NoDup (keys registry1) ->
  Permutation registry1 registry2 ->
  get_labextension_manifest_data_by_folder W1 (BUILT_FILES H) =
    get_labextension_manifest_data_by_folder W2 (BUILT_FILES H) ->
  isfile W1 (path_join H (BUILT_FILES H) "main.css") =
    isfile W2 (path_join H (BUILT_FILES H) "main.css") ->
  (forall name data,
      In (name, data) registry1 ->
      truthy (get_default data "python_module" PNone) = true ->
      get_labextension_config_python W1 (get_default data "python_module" PNone)
      = get_labextension_config_python W2
          (get_default data "python_module" PNone)) ->
  get H W1 registry1 = get H W2 registry2.
Proof.
  intros Hnd Hperm Hfolder Hisfile Hprov.
  rewrite !get_cases, <- Hfolder.
  destruct (get_labextension_manifest_data_by_folder W1 (BUILT_FILES H))
    as [e|data]; [reflexivity|].
  destruct (lookup data "main") as [[| | | | |main_data]|]; try reflexivity.
  destruct (lookup main_data "entry") as [main|]; [|reflexivity].
  f_equal.
  assert (Hstart : start H W1 = start H W2).
  { unfold start, core_css. now rewrite Hisfile. }
  rewrite Hstart. unfold gather.
  rewrite <- (sorted_permutation_eq Hnd Hperm).
  apply for_each_ext_in. intros [name data'] Hin st.
  assert (Hin' : In (name, data') registry1)
    by (eapply Permutation_in; [symmetry; apply sorted_perm|exact Hin]).
  unfold plugin_step. apply bind_ext. intros st1.
  unfold provider_step.
  destruct (truthy (get_default data' "python_module" PNone)) eqn:Hm;
    [|reflexivity].
  now rewrite (Hprov _ _ Hin' Hm).
Qed.

Section NonDict.
Variable H : Host.
Variables prefix name : string.

Lemma value_step_non_dict (value : pyval) (st : locals) :
  is_dict value = false -> value_step H prefix name st value = ret st.
Proof. destruct value; simpl; auto. discriminate. Qed.

Lemma values_loop_filter (vs : list pyval) :
  forall st,
    for_each (value_step H prefix name) vs st =
    for_each (value_step H prefix name) (filter is_dict vs) st.
Proof.
  induction vs as [|v vs IH]; intros st; [reflexivity|].
  cbn [filter for_each]. destruct (is_dict v) eqn:Hv.
  - cbn [for_each]. apply bind_ext. exact IH.
  - rewrite (value_step_non_dict v st Hv), bind_ret_l. apply IH.
Qed.

Lemma filter_setitem_non_dict (d : dict) (k : string) (v : pyval) :
  is_dict v = false ->
  filter is_dict (values (setitem d k v)) =
  filter is_dict (values (remove_key d k)).
Proof.
  intros Hv. induction d as [|[k' v'] d IH]; simpl.
  - now rewrite Hv.
  - destruct (k' =? k); simpl.
    + now rewrite Hv.
    + now rewrite IH.
Qed.

End NonDict.

(** C10: a value of the manifest data that is not a dictionary adds
    nothing: the loop over the values does what it does over the
    dictionaries among them.  So the "python_module" that registration
    stores in the data, a string or [None], gives no entry point, no
    bundle URL and no CSS URL: the data is read as if it had no such key. *)
Theorem non_dict_values_are_skipped (H : Host) (prefix name : string)
    (manifest ext_config : dict) (st : locals) :
  is_dict (get_default ext_config "python_module" PNone) = false ->
  let python_module := get_default ext_config "python_module" PNone in
  let data := setitem manifest "python_module" python_module in
  value_step H prefix name st python_module = ret st /\
  value_entries python_module = [] /\
  value_bundles H prefix name python_module = [] /\
  value_css H prefix name python_module = [] /\
  for_each (value_step H prefix name) (values data) st =
    for_each (value_step H prefix name)
             (values (remove_key manifest "python_module")) st /\
  forall vs,
    for_each (value_step H prefix name) vs st =
    for_each (value_step H prefix name) (filter is_dict vs) st.
Proof.
  intros Hm python_module data. subst python_module data.
  split; [now apply value_step_non_dict|].
  repeat split.
  - destruct (get_default ext_config "python_module" PNone);
      try reflexivity; discriminate.
  - destruct (get_default ext_config "python_module" PNone);
      try reflexivity; discriminate.
  - destruct (get_default ext_config "python_module" PNone);
      try reflexivity; discriminate.
  - rewrite values_loop_filter, (filter_setitem_non_dict _ _ _ Hm).
    symmetry. apply values_loop_filter.
  - intros vs. apply values_loop_filter.
Qed.

(** * The properties on the demo server *)

Ltac distinct_keys :=
  vm_compute; repeat constructor; simpl; intuition discriminate.

Lemma config_last_writer_wins_witness :
  renders Demo.host DemoMerge.world DemoMerge.four
          (plan Demo.host DemoMerge.world DemoMerge.four (PStr "main/index")) /\
  NoDup (keys DemoMerge.four) /\
  lookup (ctx_jupyterlab_config
            (plan Demo.host DemoMerge.world DemoMerge.four
                  (PStr "main/index"))) "x"
  = Some (PInt 2) /\
  lookup (ctx_jupyterlab_config
            (plan Demo.host DemoMerge.world DemoMerge.four
                  (PStr "main/index"))) "terminalsAvailable"
  = Some (PBool true).
Proof.
  assert (Hr : renders Demo.host DemoMerge.world DemoMerge.four
                 (plan Demo.host DemoMerge.world DemoMerge.four
                       (PStr "main/index")))
    by (vm_compute; reflexivity).
  assert (Hnd : NoDup (keys DemoMerge.four)) by distinct_keys.
  split; [exact Hr|]. split; [exact Hnd|].
  pose proof (@config_last_writer_wins Demo.host DemoMerge.world
                DemoMerge.four _ Hr Hnd) as (_ & _ & _ & Hlast & Hkeep).
  split.
  - refine (Hlast "b" (snd (Demo.plugin "b" (PStr "b_config")))
              [("x", PInt 2)] "x" (PInt 2) _ _ _ _ _ _).
    + left. reflexivity.
    + reflexivity.
    + reflexivity.
    + distinct_keys.
    + reflexivity.
    + intros nameC dataC [Hb|[Hz|[Ha|[Hc|[]]]]] Hlt.
      * injection Hb as <- <-. vm_compute in Hlt. discriminate.
      * injection Hz as <- <-. right. right.
        exists [("y", PInt 3)]. split; reflexivity.
      * injection Ha as <- <-. vm_compute in Hlt. discriminate.
      * injection Hc as <- <-. left. reflexivity.
  - refine (Hkeep "terminalsAvailable" _).
    intros name data [Hb|[Hz|[Ha|[Hc|[]]]]].
    + injection Hb as <- <-. right. right.
      exists [("x", PInt 2)]. split; reflexivity.
    + injection Hz as <- <-. right. right.
      exists [("y", PInt 3)]. split; reflexivity.
    + injection Ha as <- <-. right. right.
      exists [("x", PInt 1)]. split; reflexivity.
    + injection Hc as <- <-. left. reflexivity.
Defined.

Lemma provider_failure_is_isolated_witness :
  renders Demo.host DemoMerge.world DemoMerge.with_failure
          (plan Demo.host DemoMerge.world DemoMerge.with_failure
                (PStr "main/index")) /\
  In (LogError (Exc (Raised "No module named broken")))
     (trace (get Demo.host DemoMerge.world DemoMerge.with_failure)) /\
  lookup (ctx_jupyterlab_config
            (plan Demo.host DemoMerge.world DemoMerge.with_failure
                  (PStr "main/index"))) "x" = Some (PInt 1) /\
  lookup (ctx_jupyterlab_config
            (plan Demo.host DemoMerge.world DemoMerge.with_failure
                  (PStr "main/index"))) "y" = Some (PInt 3).
Proof.
  assert (Hr : renders Demo.host DemoMerge.world DemoMerge.with_failure
                 (plan Demo.host DemoMerge.world DemoMerge.with_failure
                       (PStr "main/index")))
    by (vm_compute; reflexivity).
  assert (Hnd : NoDup (keys DemoMerge.with_failure)) by distinct_keys.
  split; [exact Hr|].
  assert (Hin : In (Demo.plugin "m" (PStr "broken")) DemoMerge.with_failure)
    by (right; left; reflexivity).
  pose proof (proj2 (proj2
                (provider_failure_is_isolated Demo.host DemoMerge.world
                   DemoMerge.with_failure))
                _ "m" (snd (Demo.plugin "m" (PStr "broken")))
                (Raised "No module named broken") Hr Hnd Hin
                eq_refl eq_refl) as (Hlog & Hlast & _).
  split; [exact Hlog|]. split.
  - refine (Hlast "a" (snd (Demo.plugin "a" (PStr "a_config")))
              [("x", PInt 1)] "x" (PInt 1) _ _ _ _ _ _).
    + right. right. left. reflexivity.
    + reflexivity.
    + reflexivity.
    + distinct_keys.
    + reflexivity.
    + intros nameC dataC [Hz|[Hm|[Ha|[]]]] Hlt Hne.
      * injection Hz as <- <-. right. right.
        exists [("y", PInt 3)]. split; reflexivity.
      * injection Hm as <- <-. now elim Hne.
      * injection Ha as <- <-. vm_compute in Hlt. discriminate.
  - refine (Hlast "z" (snd (Demo.plugin "z" (PStr "y_config")))
              [("y", PInt 3)] "y" (PInt 3) _ _ _ _ _ _).
    + left. reflexivity.
    + reflexivity.
    + reflexivity.
    + distinct_keys.
    + reflexivity.
    + intros nameC dataC [Hz|[Hm|[Ha|[]]]] Hlt Hne.
      * injection Hz as <- <-. vm_compute in Hlt. discriminate.
      * injection Hm as <- <-. now elim Hne.
      * injection Ha as <- <-. vm_compute in Hlt. discriminate.
Defined.

Lemma missing_main_gives_error_page_witness :
  contains (V := pyval) [] "main" = false /\
  written (trace (get Demo.host Demo.unbuilt Demo.three)) = [error_page] /\
  invoked (trace (get Demo.host Demo.unbuilt Demo.three)) = [].
Proof.
  split; [reflexivity|].
  pose proof (@missing_main_gives_error_page Demo.host Demo.unbuilt
                Demo.three [] eq_refl eq_refl) as Hyp.
  split; [exact (proj1 (proj2 Hyp))|exact (proj1 (proj2 (proj2 (proj2 Hyp))))].
Defined.

Lemma registration_gate_witness :
  load_labextensions Demo.world Demo.configured = ([], inr Demo.registered) /\
  fails Demo.world "shaky" Demo.on /\
  ~ In "shaky" (keys Demo.registered).
Proof.
  assert (Hload : load_labextensions Demo.world Demo.configured
                  = ([], inr Demo.registered)) by (vm_compute; reflexivity).
  assert (Hfails : fails Demo.world "shaky" Demo.on).
  { right. right. left. split.
    - exists (PBool true). split; reflexivity.
    - exists "/usr/share/jupyter/labextensions/shaky",
             "     X has shaky entry point?", [].
      split; reflexivity. }
  split; [exact Hload|]. split; [exact Hfails|].
  refine (proj1 (proj2 (@registration_gate Demo.world Demo.configured
                          Demo.registered [] Hload _)
                       "shaky" Demo.on _ Hfails)).
  - distinct_keys.
  - right. right. left. reflexivity.
Defined.

(** C5, as stated, fails: a plugin that registration accepts, with an
    "entry" and an empty or absent "files", makes the handler raise. *)
Lemma truthy_entry_without_files_raises :
  (load_labextensions Demo.world [("empty", Demo.on)]
     = ([], inr Demo.empty_registry) /\
   outcome (gather Demo.host Demo.world Demo.empty_registry
              (start Demo.host Demo.world)) = inl IndexError /\
   get Demo.host Demo.world Demo.empty_registry = ([], inl IndexError)) /\
  (load_labextensions Demo.world [("bare", Demo.on)]
     = ([], inr Demo.bare_registry) /\
   outcome (gather Demo.host Demo.world Demo.bare_registry
              (start Demo.host Demo.world)) = inl (KeyError (PStr "files")) /\
   get Demo.host Demo.world Demo.bare_registry
     = ([], inl (KeyError (PStr "files")))).
Proof. repeat split; vm_compute; reflexivity. Qed.

Lemma well_formed_plan_never_raises_witness :
  well_formed_registry Demo.three = true /\
  outcome (get Demo.host Demo.world Demo.three) = inr tt.
Proof.
  split; [reflexivity|].
  refine (proj1 (proj2 (@well_formed_plan_never_raises Demo.host Demo.world
                          Demo.three eq_refl)
                       Demo.build_manifest _ (PStr "main/index")
                       eq_refl eq_refl eq_refl)).
Defined.

(** C6, as stated, fails: a stylesheet listed in two entries of a manifest
    is in the CSS list twice. *)
Lemma css_urls_keep_duplicates :
  load_labextensions Demo.world [("twice", Demo.on)]
    = ([], inr Demo.twice_registry) /\
  renders Demo.host Demo.world Demo.twice_registry
          (plan Demo.host Demo.world Demo.twice_registry (PStr "main/index")) /\
  ctx_jupyterlab_css
    (plan Demo.host Demo.world Demo.twice_registry (PStr "main/index"))
  = ["/lab/main.css"; "/labextension/twice/style.css";
     "/labextension/twice/style.css"] /\
  ~ NoDup (ctx_jupyterlab_css
             (plan Demo.host Demo.world Demo.twice_registry
                   (PStr "main/index"))).
Proof.
  split; [vm_compute; reflexivity|]. split; [vm_compute; reflexivity|].
  split; [vm_compute; reflexivity|].
  intros Hnd. vm_compute in Hnd.
  inversion Hnd as [|? ? _ Hrest]; subst.
  inversion Hrest as [|? ? Hnotin _]; subst.
  apply Hnotin. now left.
Qed.

Lemma css_urls_one_per_listing_witness :
  renders Demo.host Demo.world Demo.twice_registry
          (plan Demo.host Demo.world Demo.twice_registry (PStr "main/index")) /\
  List.length
    (ctx_jupyterlab_css
       (plan Demo.host Demo.world Demo.twice_registry (PStr "main/index")))
  = List.length (core_css Demo.host Demo.world) +
    list_sum (map (css_listed Demo.host) (sorted Demo.twice_registry)).
Proof.
  assert (Hr : renders Demo.host Demo.world Demo.twice_registry
                 (plan Demo.host Demo.world Demo.twice_registry
                       (PStr "main/index")))
    by (vm_compute; reflexivity).
  split; [exact Hr|].
  exact (proj2 (@css_urls_one_per_listing Demo.host Demo.world
                  Demo.twice_registry _ Hr)).
Defined.

Lemma bundle_urls_in_order_witness :
  renders Demo.host Demo.world Demo.three
          (plan Demo.host Demo.world Demo.three (PStr "main/index")) /\
  ctx_jupyterlab_bundles
    (plan Demo.host Demo.world Demo.three (PStr "main/index"))
  = ["/lab/loader.bundle.js"; "/lab/main.bundle.js";
     "/labextension/a/a.js"; "/labextension/b/b.js"; "/labextension/c/c.js"].
Proof.
  assert (Hr : renders Demo.host Demo.world Demo.three
                 (plan Demo.host Demo.world Demo.three (PStr "main/index")))
    by (vm_compute; reflexivity).
  split; [exact Hr|].
  rewrite (proj1 (@bundle_urls_in_order Demo.host Demo.world Demo.three _ Hr)).
  vm_compute. reflexivity.
Defined.

Lemma css_core_gated_plugins_trusted_witness :
  renders Demo.host Demo.world Demo.three
          (plan Demo.host Demo.world Demo.three (PStr "main/index")) /\
  In "/labextension/b/b.css"
     (ctx_jupyterlab_css
        (plan Demo.host Demo.world Demo.three (PStr "main/index"))).
Proof.
  assert (Hr : renders Demo.host Demo.world Demo.three
                 (plan Demo.host Demo.world Demo.three (PStr "main/index")))
    by (vm_compute; reflexivity).
  split; [exact Hr|].
  refine (proj2 (@css_core_gated_plugins_trusted Demo.host Demo.world
                   Demo.three _ Hr)
                "b" (snd (Demo.plugin "b" (PStr "b_config")))
                [("entry", PStr "b/index");
                 ("files", PList [PStr "b.js"; PStr "b.css"])]
                "b.css" _ _ _ _).
  - left. reflexivity.
  - left. reflexivity.
  - right. left. reflexivity.
  - reflexivity.
Defined.

Lemma plan_is_deterministic_witness :
  NoDup (keys Demo.three) /\
  Permutation Demo.three Demo.three' /\
  get Demo.host Demo.world Demo.three
  = get Demo.host (quiet Demo.world) Demo.three'.
Proof.
  assert (Hnd : NoDup (keys Demo.three)) by distinct_keys.
  assert (Hperm : Permutation Demo.three Demo.three').
  { unfold Demo.three, Demo.three'.
    apply Permutation_cons_app with (l1 := [Demo.plugin "a" (PStr "a_config")])
                                    (l2 := [Demo.plugin "c" PNone]).
    apply perm_swap. }
  split; [exact Hnd|]. split; [exact Hperm|].
  apply (@plan_is_deterministic Demo.host Demo.world (quiet Demo.world)
           Demo.three Demo.three' Hnd Hperm eq_refl eq_refl).
  intros name data [Hb|[Hc|[Ha|[]]]] Hm.
  - injection Hb as <- <-. reflexivity.
  - injection Hc as <- <-. discriminate Hm.
  - injection Ha as <- <-. reflexivity.
Defined.

Lemma non_dict_values_are_skipped_witness :
  is_dict (get_default (Demo.on_with "a_config") "python_module" PNone)
  = false /\
  for_each (value_step Demo.host "/labextension" "a")
    (values (setitem (Demo.manifest "a" ["a.js"; "a.css"]) "python_module"
               (get_default (Demo.on_with "a_config") "python_module" PNone)))
    (start Demo.host Demo.world)
  = for_each (value_step Demo.host "/labextension" "a")
      (values (remove_key (Demo.manifest "a" ["a.js"; "a.css"])
                          "python_module"))
      (start Demo.host Demo.world).
Proof.
  split; [reflexivity|].
  exact (proj1 (proj2 (proj2 (proj2 (proj2
           (@non_dict_values_are_skipped Demo.host "/labextension" "a"
              (Demo.manifest "a" ["a.js"; "a.css"])
              (Demo.on_with "a_config") (start Demo.host Demo.world)
              eq_refl)))))).
Defined.

(** * Further properties of the code *)

(** ** Registration *)

(** X1: the names of the registry are distinct, whatever the
    configuration: [sorted(labextensions.items())] is strictly ascending
    in the names and never has to compare two manifest dictionaries. *)
Theorem registry_names_distinct (W : World)
    (labextensions : list (string * dict)) (t : list event) (out : registry) :
  load_labextensions W labextensions = (t, inr out) ->
  NoDup (keys out) /\
  StronglySorted (fun a b => (fst a <? fst b)%string = true) (sorted out).
Proof.
  unfold load_labextensions. intros Hload.
  assert (Hnd : NoDup (keys out)).
  { apply (load_NoDup W _ _ Hload). constructor. }
  split; [exact Hnd|]. now apply sorted_strict.
Qed.

(** X2: what the handler reads as a plugin's "python_module" is what the
    configuration of the plugin says, [None] when it says nothing; a
    "python_module" key of the manifest itself is overwritten. *)
Theorem registered_python_module (W : World)
    (labextensions : list (string * dict)) (t : list event) (out : registry)
    (name : string) (ext_config data : dict) :
  load_labextensions W labextensions = (t, inr out) ->
  NoDup (keys labextensions) ->
  In (name, ext_config) labextensions ->
  In (name, data) out ->
  lookup data "python_module"
    = Some (get_default ext_config "python_module" PNone) /\
  get_default data "python_module" PNone
    = get_default ext_config "python_module" PNone.
Proof.
  unfold load_labextensions. intros Hload Hnd Hc Hin.
  destruct (load_passes W _ _ Hload _ _ Hin) as [[]|(c & m & Hc' & _ & ->)].
  assert (c = ext_config) by (eapply keys_unique; eauto). subst c.
  assert (Hl : lookup (setitem m "python_module"
                         (get_default ext_config "python_module" PNone))
                      "python_module"
               = Some (get_default ext_config "python_module" PNone))
    by apply lookup_setitem_same.
  split; [exact Hl|]. unfold get_default at 1. now rewrite Hl.
Qed.

(** X3: a configured extension without the key "enabled" makes the
    registration raise [KeyError]: there is no registry, whatever the
    extensions before it and after it are. *)
Theorem missing_enabled_aborts_registration (W : World)
    (before after : list (string * dict)) (name : string) (ext_config : dict)
    (t : list event) (out : registry) :
  load_labextensions W before = (t, inr out) ->
  lookup ext_config "enabled" = None ->
  load_labextensions W (before ++ (name, ext_config) :: after)
    = ([], inl (KeyError (PStr "enabled"))).
Proof.
  unfold load_labextensions. intros Hbefore Hmissing.
  assert (Ht : t = []).
  { change t with (trace (t, @inr exn registry out)). rewrite <- Hbefore.
    apply load_trace. }
  subst t. rewrite for_each_app, (bind_silent _ Hbefore). cbn [for_each].
  apply bind_fail. unfold register_step.
  apply bind_fail. unfold getitem. now rewrite Hmissing.
Qed.

(** ** The request *)

(** X4: a request writes one page or none: one when [get] returns, none
    when it raises.  No part of a page is written before an exception. *)
Theorem get_writes_once_or_nothing (H : Host) (W : World)
    (labextensions : registry) :
  match outcome (get H W labextensions) with
  | inl _ => written (trace (get H W labextensions)) = []
  | inr _ => exists p, written (trace (get H W labextensions)) = [p]
  end.
Proof.
  rewrite get_cases.
  destruct (get_labextension_manifest_data_by_folder W (BUILT_FILES H))
    as [e|data]; [reflexivity|].
  destruct (lookup data "main") as [[| | | | |main_data]|];
    try reflexivity; [|simpl; eauto].
  destruct (lookup main_data "entry") as [main|]; [|reflexivity].
  assert (Hsilent := gather_written H W labextensions (start H W)).
  unfold finish.
  destruct (gather H W labextensions (start H W)) as [t [e|st]]; simpl in *.
  - exact Hsilent.
  - rewrite written_app, Hsilent. simpl. eauto.
Qed.

(** X5: a build manifest whose "main" has no "entry", or is not a
    dictionary, makes the handler raise, [KeyError] or [TypeError], before
    it logs or writes anything: only a missing "main" gets the error page. *)
Theorem main_without_entry_raises (H : Host) (W : World)
    (labextensions : registry) (data : dict) (main_data : pyval) :
  get_labextension_manifest_data_by_folder W (BUILT_FILES H) = inr data ->
  lookup data "main" = Some main_data ->
  (forall d, main_data = PDict d -> lookup d "entry" = None) ->
  get H W labextensions =
  ([], inl (if is_dict main_data then KeyError (PStr "entry") else TypeError)).
Proof.
  intros Hdata Hmain Hentry. rewrite get_cases, Hdata, Hmain.
  destruct main_data as [| | | | |d]; try reflexivity.
  now rewrite (Hentry d eq_refl).
Qed.

Section Invocations.
Variable H : Host.
Variable W : World.

Lemma invoked_merge_events (items : list (string * dict)) :
  forall payload,
    invoked (merge_events H W items payload) = called_modules items.
Proof.
  unfold called_modules.
  induction items as [|item items IH]; intros payload; [reflexivity|].
  simpl. rewrite invoked_app, IH. unfold provider_events.
  destruct (truthy (get_default (snd item) "python_module" PNone));
    [|reflexivity].
  simpl. f_equal.
  destruct (get_labextension_config_python W _) as [e|value];
    [reflexivity|].
  now destruct (snd (py_update H payload value)).
Qed.

Lemma merge_events_clean (items : list (string * dict)) :
  Forall (fun item =>
            truthy (get_default (snd item) "python_module" PNone) = true ->
            exists d,
              get_labextension_config_python W
                (get_default (snd item) "python_module" PNone)
              = inr (PDict d)) items ->
  forall payload, errors (merge_events H W items payload) = [].
Proof.
  induction 1 as [|item items Hitem _ IH]; intros payload; [reflexivity|].
  simpl. rewrite errors_app, IH, app_nil_r. unfold provider_events.
  destruct (truthy (get_default (snd item) "python_module" PNone));
    [|reflexivity].
  destruct (Hitem eq_refl) as [d ->]. reflexivity.
Qed.

Lemma merge_without_modules (items : list (string * dict)) :
  Forall (fun item =>
            truthy (get_default (snd item) "python_module" PNone) = false)
         items ->
  forall payload,
    merge H W items payload = payload /\
    merge_events H W items payload = [].
Proof.
  induction 1 as [|item items Hitem _ IH]; intros payload; [now split|].
  unfold merge in *. simpl.
  assert (Hc : contribution H W payload (snd item) = payload)
    by (unfold contribution; now rewrite Hitem).
  rewrite Hc. destruct (IH payload) as [-> ->].
  split; [reflexivity|]. unfold provider_events. now rewrite Hitem.
Qed.

End Invocations.

(** X6: a request that renders the page calls the provider of every
    registered plugin with a "python_module", once, in ascending order of
    the plugin names, and no other. *)
Theorem providers_invoked_in_name_order (H : Host) (W : World)
    (labextensions : registry) (ctx : context) :
  renders H W labextensions ctx ->
  invoked (trace (get H W labextensions))
    = called_modules (sorted labextensions).
Proof.
  intros Hr.
  destruct (renders_plan Hr) as (_ & _ & _ & _ & _ & _ & _ & ->).
  simpl. rewrite invoked_app, invoked_merge_events. simpl.
  apply app_nil_r.
Qed.

(** X7: when no registered plugin has a "python_module" (the key is
    [None], or the empty string), the payload of the page is
    [terminalsAvailable] alone and the request does nothing but write the
    page. *)
Theorem no_module_no_contribution (H : Host) (W : World)
    (labextensions : registry) (ctx : context) :
  renders H W labextensions ctx ->
  Forall (fun item =>
            truthy (get_default (snd item) "python_module" PNone) = false)
         labextensions ->
  ctx_jupyterlab_config ctx = [("terminalsAvailable", terminals_available H)]
  /\ get H W labextensions = ([Write (LabHtml ctx)], inr tt).
Proof.
  intros Hr Hnone.
  assert (Hsorted :
    Forall (fun item =>
              truthy (get_default (snd item) "python_module" PNone) = false)
           (sorted labextensions)).
  { rewrite Forall_forall in *. intros item Hin. apply Hnone.
    eapply Permutation_in; [symmetry; apply sorted_perm|exact Hin]. }
  destruct (renders_plan Hr) as (_ & _ & main & _ & _ & _ & -> & Hget).
  destruct (merge_without_modules H W Hsorted (initial_payload H))
    as [Hmerge Hevents].
  split.
  - simpl. exact Hmerge.
  - rewrite Hget, Hevents. reflexivity.
Qed.

(** X10: when every provider a request calls returns a mapping, the
    request logs no error. *)
Theorem mappings_log_nothing (H : Host) (W : World)
    (labextensions : registry) (ctx : context) :
  renders H W labextensions ctx ->
  (forall name data,
      In (name, data) labextensions ->
      truthy (get_default data "python_module" PNone) = true ->
      exists d,
        get_labextension_config_python W
          (get_default data "python_module" PNone) = inr (PDict d)) ->
  errors (trace (get H W labextensions)) = [].
Proof.
  intros Hr Hmaps.
  destruct (renders_plan Hr) as (_ & _ & _ & _ & _ & _ & _ & ->).
  simpl. rewrite errors_app, merge_events_clean; [reflexivity|].
  apply Forall_forall. intros [name data] Hin. simpl.
  apply (Hmaps name). eapply Permutation_in; [|exact Hin].
  symmetry. apply sorted_perm.
Qed.

(** ** Every value of a run that did not raise *)

Section EachValue.
Variable H : Host.
Variable W : World.
Variable prefix : string.

Lemma values_loop_each (name : string) (vs : list pyval) :
  forall (st st' : locals) (t : list event) (value : pyval),
    for_each (value_step H prefix name) vs st = (t, inr st') ->
    In value vs ->
    exists st1 st2 t',
      value_step H prefix name st1 value = (t', inr st2).
Proof.
  induction vs as [|v vs IH]; simpl; intros st st' t value Hrun Hin;
    [destruct Hin|].
  bind_inv Hrun as st1 Hstep Hrest. destruct Hin as [->|Hin].
  - eauto.
  - eapply IH; eauto.
Qed.

Lemma plugins_loop_each (items : list (string * dict)) :
  forall (st st' : locals) (t : list event) (name : string) (data : dict)
         (value : pyval),
    for_each (plugin_step H W prefix) items st = (t, inr st') ->
    In (name, data) items -> In value (values data) ->
    exists st1 st2 t',
      value_step H prefix name st1 value = (t', inr st2).
Proof.
  induction items as [|[name0 data0] items IH]; simpl;
    intros st st' t name data value Hrun Hin Hv; [destruct Hin|].
  bind_inv Hrun as st1 Hstep Hrest. destruct Hin as [[= -> ->]|Hin].
  - bind_inv Hstep as st2 Hvalues Hprov.
    eapply values_loop_each; eauto.
  - eapply IH; eauto.
Qed.

Lemma value_step_needs_files (name : string) (st st' : locals) (v : dict)
    (t : list event) :
  value_step H prefix name st (PDict v) = (t, inr st') ->
  exists files fnames,
    lookup v "files" = Some files /\ items_of files = inr fnames.
Proof.
  unfold value_step. intros Hrun.
  bind_inv Hrun as st1 Hbundle Hcss.
  bind_inv Hcss as files Hget Hcss.
  apply getitem_ok in Hget as [_ Hfiles].
  bind_inv Hcss as fnames Hiter Hcss.
  unfold lift in Hiter. injection Hiter as _ Hiter. eauto.
Qed.

Lemma bundles_entries_length (items : list (string * dict)) :
  (forall name data v,
      In (name, data) items -> In (PDict v) (values data) ->
      has_entry v = true -> exists f, first_file v = Some f) ->
  List.length (flat_map (plugin_bundles H prefix) items)
  = List.length (flat_map plugin_entries_of items).
Proof.
  induction items as [|[name data] items IH]; intros Hfirst; [reflexivity|].
  assert (Hrest : List.length (flat_map (plugin_bundles H prefix) items)
                  = List.length (flat_map plugin_entries_of items)).
  { apply IH. intros n d v Hin. apply (Hfirst n d v). now right. }
  simpl. rewrite !length_app, Hrest.
  f_equal. unfold plugin_bundles, plugin_entries_of. simpl.
  assert (Hdata : forall v, In (PDict v) (values data) ->
                            has_entry v = true ->
                            exists f, first_file v = Some f).
  { intros v. apply (Hfirst name data v). now left. }
  clear - Hdata. induction (values data) as [|value vs IHv]; [reflexivity|].
  assert (Hvs : List.length (flat_map (value_bundles H prefix name) vs)
                = List.length (flat_map value_entries vs)).
  { apply IHv. intros v Hin. apply Hdata. now right. }
  simpl. rewrite !length_app, Hvs.
  f_equal. destruct value as [| | | | |v]; try reflexivity. simpl.
  destruct (has_entry v) eqn:Hhas; [|reflexivity].
  destruct (Hdata v (or_introl eq_refl) Hhas) as [f ->]. reflexivity.
Qed.

End EachValue.

Lemma renders_gathered (H : Host) (W : World) (labextensions : registry)
    (ctx : context) :
  renders H W labextensions ctx ->
  exists t st,
    for_each (plugin_step H W (ujoin H (base_url H) EXTENSION_PREFIX))
             (sorted labextensions) (start H W) = (t, inr st).
Proof.
  intros Hr.
  destruct (renders_plan Hr)
    as (data & main_data & main & Hdata & Hmain & Hentry & _ & Hget).
  rewrite (get_with_main H W labextensions Hdata Hmain Hentry) in Hget.
  unfold finish in Hget. fold (gather H W labextensions (start H W)).
  destruct (gather H W labextensions (start H W)) as [t [e|st]];
    [discriminate|eauto].
Qed.

(** X8: on a rendered page every plugin entry point has its bundle: the
    bundle list is two longer than the list of entry points, which holds
    the "entry" of each manifest entry that has one, in order. *)
Theorem bundles_pair_with_entries (H : Host) (W : World)
    (labextensions : registry) (ctx : context) :
  renders H W labextensions ctx ->
  List.length (ctx_jupyterlab_bundles ctx)
    = 2 + List.length (ctx_plugin_entries ctx) /\
  ctx_plugin_entries ctx
    = flat_map (fun item =>
                  flat_map (fun value =>
                              match value with
                              | PDict v =>
                                  if truthy (get_default v "entry" PNone)
                                  then [get_default v "entry" PNone] else []
                              | _ => []
                              end)
                           (values (snd item)))
               (sorted labextensions).
Proof.
  intros Hr.
  destruct (renders_gathered Hr) as (t & st & Hg).
  destruct (renders_plan Hr) as (_ & _ & main & _ & _ & _ & -> & _).
  split; [|reflexivity].
  simpl. f_equal. f_equal. apply bundles_entries_length.
  intros name data v Hin Hv Hhas.
  eapply plugins_loop_first_file; eauto.
Qed.

(** X9: a registered manifest entry without "files", or with an "entry"
    and an empty "files", stops every request: whatever the other plugins
    and the providers are, the lab page is not rendered. *)
Theorem entry_without_files_blocks_the_page (H : Host) (W : World)
    (labextensions : registry) (name : string) (data v : dict) :
  In (name, data) labextensions ->
  In (PDict v) (values data) ->
  lookup v "files" = None \/
  (has_entry v = true /\ lookup v "files" = Some (PList [])) ->
  forall ctx, ~ renders H W labextensions ctx.
Proof.
  intros Hin Hv Hbad ctx Hr.
  destruct (renders_gathered Hr) as (t & st & Hg).
  assert (Hin' : In (name, data) (sorted labextensions))
    by (eapply Permutation_in; [apply sorted_perm|exact Hin]).
  destruct Hbad as [Hnone|[Hhas Hempty]].
  - destruct (plugins_loop_each H W _ _ _ _ _ _ Hg Hin' Hv)
      as (st1 & st2 & t' & Hstep).
    apply value_step_needs_files in Hstep as (files & _ & Hfiles & _).
    congruence.
  - destruct (plugins_loop_first_file H W _ _ _ _ _ _ Hg Hin' Hv Hhas)
      as [f Hf].
    unfold first_file in Hf. rewrite Hempty in Hf. discriminate.
Qed.

(** X13: every URL of a rendered page is a core URL or lies under the
    extension prefix, in the folder of a registered plugin: the page
    refers to no plugin that is not in the registry. *)
Theorem plugin_urls_name_registered_plugins (H : Host) (W : World)
    (labextensions : registry) (ctx : context) (url : string) :
  renders H W labextensions ctx ->
  In url (ctx_jupyterlab_bundles ctx ++ ctx_jupyterlab_css ctx) ->
  In url (core_bundles H ++ core_css H W) \/
  exists name data rest,
    In (name, data) labextensions /\
    url = (ujoin H (base_url H) EXTENSION_PREFIX ++ "/" ++ name ++ "/"
             ++ rest)%string.
Proof.
  intros Hr Hurl.
  destruct (renders_plan Hr) as (_ & _ & main & _ & _ & _ & -> & _).
  cbn [ctx_jupyterlab_bundles ctx_jupyterlab_css plan] in Hurl.
  assert (Hfrom : forall name data,
             In (name, data) (sorted labextensions) ->
             In (name, data) labextensions)
    by (intros; eapply Permutation_in; [symmetry; apply sorted_perm|eauto]).
  assert (Hbundle : forall item,
             In url (plugin_bundles H (extension_prefix H) item) ->
             exists rest,
               url = (extension_prefix H ++ "/" ++ fst item ++ "/"
                        ++ rest)%string).
  { intros item Hu. unfold plugin_bundles in Hu.
    apply in_flat_map in Hu as (value & _ & Hu).
    destruct value as [| | | | |v]; try destruct Hu. simpl in Hu.
    destruct (has_entry v); [|destruct Hu].
    destruct (first_file v) as [f|]; [|destruct Hu].
    destruct Hu as [<-|[]]. unfold extension_url. eauto. }
  assert (Hcss : forall item,
             In url (plugin_css H (extension_prefix H) item) ->
             exists rest,
               url = (extension_prefix H ++ "/" ++ fst item ++ "/"
                        ++ rest)%string).
  { intros item Hu. unfold plugin_css in Hu.
    apply in_flat_map in Hu as (value & _ & Hu).
    destruct value as [| | | | |v]; try destruct Hu. simpl in Hu.
    unfold css_urls in Hu. apply in_flat_map in Hu as (fname & _ & Hu).
    destruct fname as [| | |f| |]; try destruct Hu.
    destruct (is_css H f); [|destruct Hu].
    destruct Hu as [<-|[]]. unfold extension_url. eauto. }
  apply in_app_or in Hurl as [Hb|Hc].
  - apply in_app_or in Hb as [Hb|Hb].
    + left. apply in_or_app. now left.
    + right. apply in_flat_map in Hb as ([name data] & Hitem & Hu).
      destruct (Hbundle _ Hu) as [rest ->]. exists name, data, rest. auto.
  - apply in_app_or in Hc as [Hc|Hc].
    + left. apply in_or_app. now right.
    + right. apply in_flat_map in Hc as ([name data] & Hitem & Hu).
      destruct (Hcss _ Hu) as [rest ->]. exists name, data, rest. auto.
Qed.

(** ** Startup *)

Lemma added_routes_app (t1 t2 : list startup_event) :
  added_routes (t1 ++ t2) = added_routes t1 ++ added_routes t2.
Proof.
  induction t1 as [|[text|ev|hp routes] t1 IH]; simpl; auto.
  now rewrite IH, app_assoc.
Qed.

Lemma logged_infos_app (t1 t2 : list startup_event) :
  logged_infos (t1 ++ t2) = logged_infos t1 ++ logged_infos t2.
Proof.
  induction t1 as [|[text|ev|hp routes] t1 IH]; simpl; auto.
  now rewrite IH.
Qed.

Lemma startup_messages_routes (H : Host) (nbapp : Nbapp) :
  added_routes (startup_messages H nbapp) = [] /\
  logged_infos (startup_messages H nbapp) =
    ("JupyterLab alpha preview extension loaded from " ++ HERE H)%string
    :: (if path_exists nbapp
             (path_join H (realpath nbapp (path_join H (HERE H) "..")) ".git")
        then [DEV_NOTE_NPM] else []).
Proof.
  unfold startup_messages. now destruct (path_exists nbapp _).
Qed.

Lemma during_routes (t : list event) :
  added_routes (map During t) = [] /\ logged_infos (map During t) = [].
Proof. induction t as [|ev t [IH1 IH2]]; simpl; auto. Qed.

(** X11: the startup adds its routes or none.  When it raises (no
    [labextensions] in the configuration, a failed registration, no
    "base_url") the web application has no new handler; when it returns,
    the web application has three routes, in this order, and the lab
    handler holds the registry the registration built. *)
Theorem startup_adds_all_routes_or_none (H : Host) (W : World)
    (nbapp : Nbapp) :
  match snd (load_jupyter_server_extension H W nbapp) with
  | inl _ => added_routes (fst (load_jupyter_server_extension H W nbapp)) = []
  | inr _ =>
      exists labextensions out base_url,
        configured_labextensions nbapp = Some labextensions /\
        load_labextensions W labextensions = ([], inr out) /\
        lookup (settings nbapp) "base_url" = Some base_url /\
        added_routes (fst (load_jupyter_server_extension H W nbapp)) =
          [ {| pattern := ujoin H base_url "/lab/?";
               serves := LabHandler out |};
            {| pattern := ujoin H base_url "/lab/(.*)";
               serves := FileFindHandler (Path (BUILT_FILES H)) None |};
            {| pattern := (ujoin H base_url "/labextension" ++ "/(.*)")%string;
               serves := FileFindHandler
                           (Paths (jupyter_path nbapp "labextensions"))
                           (Some ["/"]) |} ]
  end.
Proof.
  unfold load_jupyter_server_extension.
  destruct (startup_messages_routes H nbapp) as [Hm _].
  destruct (configured_labextensions nbapp) as [labextensions|]; [|exact Hm].
  assert (Ht := load_trace W labextensions []).
  fold (load_labextensions W labextensions) in Ht.
  destruct (load_labextensions W labextensions) as [t [e|out]] eqn:Hload;
    simpl in Ht; subst t.
  - cbn [snd fst map]. now rewrite app_nil_r.
  - destruct (lookup (settings nbapp) "base_url") as [base_url|] eqn:Hb.
    + cbn [snd fst map]. exists labextensions, out, base_url.
      repeat split; auto.
      now rewrite added_routes_app, Hm.
    + cbn [snd fst map]. now rewrite app_nil_r.
Qed.

(** X12: the startup logs where the extension was loaded from and, when
    the folder above the package has a [.git], the note on [npm run
    watch]; it logs them, and nothing else, whether it then returns or
    raises. *)
Theorem startup_logs_the_notes (H : Host) (W : World) (nbapp : Nbapp) :
  logged_infos (fst (load_jupyter_server_extension H W nbapp)) =
    ("JupyterLab alpha preview extension loaded from " ++ HERE H)%string
    :: (if path_exists nbapp
             (path_join H (realpath nbapp (path_join H (HERE H) "..")) ".git")
        then [DEV_NOTE_NPM] else []).
Proof.
  unfold load_jupyter_server_extension.
  destruct (startup_messages_routes H nbapp) as [_ Hm].
  destruct (configured_labextensions nbapp) as [labextensions|]; [|exact Hm].
  destruct (load_labextensions W labextensions) as [t [e|out]].
  - cbn [fst]. rewrite logged_infos_app, Hm.
    rewrite (proj2 (during_routes t)). apply app_nil_r.
  - destruct (lookup (settings nbapp) "base_url") as [base_url|]; cbn [fst].
    + rewrite !logged_infos_app, Hm, (proj2 (during_routes t)).
      cbn [logged_infos]. now rewrite !app_nil_r.
    + rewrite logged_infos_app, Hm, (proj2 (during_routes t)).
      apply app_nil_r.
Qed.

(** * The further properties on the demo server *)

Lemma registry_names_distinct_witness :
  load_labextensions Demo.world Demo.configured = ([], inr Demo.registered) /\
  NoDup (keys Demo.registered).
Proof.
  assert (Hload : load_labextensions Demo.world Demo.configured
                  = ([], inr Demo.registered)) by (vm_compute; reflexivity).
  split; [exact Hload|].
  exact (proj1 (@registry_names_distinct Demo.world Demo.configured []
                  Demo.registered Hload)).
Defined.

Lemma registered_python_module_witness :
  load_labextensions Demo.world Demo.configured = ([], inr Demo.registered) /\
  get_default (snd (Demo.plugin "a" (PStr "a_config"))) "python_module" PNone
  = get_default (Demo.on_with "a_config") "python_module" PNone.
Proof.
  assert (Hload : load_labextensions Demo.world Demo.configured
                  = ([], inr Demo.registered)) by (vm_compute; reflexivity).
  split; [exact Hload|].
  refine (proj2 (@registered_python_module Demo.world Demo.configured []
                   Demo.registered "a" (Demo.on_with "a_config")
                   (snd (Demo.plugin "a" (PStr "a_config")))
                   Hload _ _ _)).
  - distinct_keys.
  - do 5 right. left. reflexivity.
  - right. left. reflexivity.
Defined.

Lemma missing_enabled_aborts_registration_witness :
  lookup [("python_module", PStr "a_config")] "enabled" = None /\
  load_labextensions Demo.world DemoApp.half_configured
  = ([], inl (KeyError (PStr "enabled"))).
Proof.
  split; [reflexivity|].
  exact (@missing_enabled_aborts_registration Demo.world
           [("foo", Demo.on)] [("b", Demo.on)] "a"
           [("python_module", PStr "a_config")] []
           [Demo.plugin "foo" PNone] eq_refl eq_refl).
Defined.

Lemma main_without_entry_raises_witness :
  lookup [("files", PList [PStr "main.bundle.js"])] "entry" = None /\
  get Demo.host DemoApp.entryless Demo.three
  = ([], inl (KeyError (PStr "entry"))).
Proof.
  split; [reflexivity|].
  refine (@main_without_entry_raises Demo.host DemoApp.entryless Demo.three
            [("main", PDict [("files", PList [PStr "main.bundle.js"])])]
            (PDict [("files", PList [PStr "main.bundle.js"])])
            eq_refl eq_refl _).
  intros d Hd. injection Hd as <-. reflexivity.
Defined.

Lemma providers_invoked_in_name_order_witness :
  renders Demo.host Demo.world Demo.three
          (plan Demo.host Demo.world Demo.three (PStr "main/index")) /\
  invoked (trace (get Demo.host Demo.world Demo.three))
  = [PStr "a_config"; PStr "b_config"].
Proof.
  assert (Hr : renders Demo.host Demo.world Demo.three
                 (plan Demo.host Demo.world Demo.three (PStr "main/index")))
    by (vm_compute; reflexivity).
  split; [exact Hr|].
  rewrite (@providers_invoked_in_name_order Demo.host Demo.world Demo.three
             _ Hr).
  vm_compute. reflexivity.
Defined.

Lemma no_module_no_contribution_witness :
  renders Demo.host Demo.world DemoApp.plain
          (plan Demo.host Demo.world DemoApp.plain (PStr "main/index")) /\
  ctx_jupyterlab_config
    (plan Demo.host Demo.world DemoApp.plain (PStr "main/index"))
  = [("terminalsAvailable", PBool true)].
Proof.
  assert (Hr : renders Demo.host Demo.world DemoApp.plain
                 (plan Demo.host Demo.world DemoApp.plain (PStr "main/index")))
    by (vm_compute; reflexivity).
  split; [exact Hr|].
  refine (proj1 (@no_module_no_contribution Demo.host Demo.world
                   DemoApp.plain _ Hr _)).
  repeat constructor.
Defined.

Lemma bundles_pair_with_entries_witness :
  renders Demo.host Demo.world Demo.three
          (plan Demo.host Demo.world Demo.three (PStr "main/index")) /\
  List.length (ctx_jupyterlab_bundles
                 (plan Demo.host Demo.world Demo.three (PStr "main/index")))
  = 2 + List.length
          (ctx_plugin_entries
             (plan Demo.host Demo.world Demo.three (PStr "main/index"))).
Proof.
  assert (Hr : renders Demo.host Demo.world Demo.three
                 (plan Demo.host Demo.world Demo.three (PStr "main/index")))
    by (vm_compute; reflexivity).
  split; [exact Hr|].
  exact (proj1 (@bundles_pair_with_entries Demo.host Demo.world Demo.three
                  _ Hr)).
Defined.

Lemma entry_without_files_blocks_the_page_witness :
  has_entry [("entry", PStr "empty/index"); ("files", PList [])] = true /\
  ~ renders Demo.host Demo.world Demo.empty_registry
      (plan Demo.host Demo.world Demo.empty_registry (PStr "main/index")).
Proof.
  split; [reflexivity|].
  refine (@entry_without_files_blocks_the_page Demo.host Demo.world
            Demo.empty_registry "empty" (snd (hd ("", []) Demo.empty_registry))
            [("entry", PStr "empty/index"); ("files", PList [])]
            _ _ _ _).
  - left. reflexivity.
  - left. reflexivity.
  - right. split; reflexivity.
Defined.

Lemma mappings_log_nothing_witness :
  renders Demo.host Demo.world Demo.three
          (plan Demo.host Demo.world Demo.three (PStr "main/index")) /\
  errors (trace (get Demo.host Demo.world Demo.three)) = [].
Proof.
  assert (Hr : renders Demo.host Demo.world Demo.three
                 (plan Demo.host Demo.world Demo.three (PStr "main/index")))
    by (vm_compute; reflexivity).
  split; [exact Hr|].
  refine (@mappings_log_nothing Demo.host Demo.world Demo.three _ Hr _).
  intros name data [Hb|[Hc|[Ha|[]]]] Hm.
  - injection Hb as <- <-. exists [("x", PInt 2)]. reflexivity.
  - injection Hc as <- <-. discriminate Hm.
  - injection Ha as <- <-. exists [("x", PInt 1)]. reflexivity.
Defined.

Lemma plugin_urls_name_registered_plugins_witness :
  renders Demo.host Demo.world Demo.three
          (plan Demo.host Demo.world Demo.three (PStr "main/index")) /\
  (In "/labextension/b/b.css"
      (core_bundles Demo.host ++ core_css Demo.host Demo.world) \/
   exists name data rest,
     In (name, data) Demo.three /\
     "/labextension/b/b.css"
     = (ujoin Demo.host (base_url Demo.host) EXTENSION_PREFIX ++ "/" ++ name
          ++ "/" ++ rest)%string).
Proof.
  assert (Hr : renders Demo.host Demo.world Demo.three
                 (plan Demo.host Demo.world Demo.three (PStr "main/index")))
    by (vm_compute; reflexivity).
  split; [exact Hr|].
  refine (@plugin_urls_name_registered_plugins Demo.host Demo.world
            Demo.three _ "/labextension/b/b.css" Hr _).
  vm_compute. do 7 right. left. reflexivity.
Defined.

Example startup_of_the_demo_server :
  snd (load_jupyter_server_extension Demo.host Demo.world (DemoApp.app true))
    = inr tt /\
  map pattern
      (added_routes
         (fst (load_jupyter_server_extension Demo.host Demo.world
                 (DemoApp.app true))))
    = ["/lab/?"; "/lab/(.*)"; "/labextension/(.*)"] /\
  logged_infos
    (fst (load_jupyter_server_extension Demo.host Demo.world
            (DemoApp.app true)))
    = ["JupyterLab alpha preview extension loaded from /srv/jupyterlab";
       DEV_NOTE_NPM].
Proof. repeat split; vm_compute; reflexivity. Qed.

Example startup_without_lab_section :
  load_jupyter_server_extension Demo.host Demo.world DemoApp.bare_app
  = ([LogInfo "JupyterLab alpha preview extension loaded from /srv/jupyterlab"],
     inl (Raised "AttributeError")).
Proof. vm_compute. reflexivity. Qed.
